(** * KrakenStreamer: the data-refresh and fan-out pipeline

    A shallow embedding of [src/server/storage.ts] (the in-memory
    [MemStorage] snapshot store and the [KrakenApiService] upstream client)
    and of the request and WebSocket handlers of [src/server/routes.ts].

    - JavaScript values (the parsed JSON payloads of the upstream API) are
      the inductive [val]; objects are association lists in property order,
      whose keys are assumed distinct (as [JSON.parse] builds them).
    - JavaScript numbers are IEEE-754 doubles: Rocq's primitive [float].
    - A thrown JavaScript error is an [exn]; the server code runs in the
      state-and-exception monad [M] over a [world] holding the snapshot
      store, the clock, the log of upstream URLs fetched, the open
      WebSocket clients and the messages sent to them.  A write done before
      an exception is thrown is kept, as in the source.
    - The upstream network is a function [net] from URL to HTTP response.
    - Not modelled: the time spent waiting in [rateLimitedFetch] (the clock
      only moves between handler invocations), concurrency between handler
      invocations, and the members that plain objects inherit from
      [Object.prototype] (pair identifiers such as "toString" are outside
      the model). *)

From Stdlib Require Import PrimFloat Uint63 ZArith Ascii.
From stdpp Require Import base list gmap strings.

Set Warnings "-register-all".

Abbreviation fzero := PrimFloat.zero.

Open Scope string_scope.

(* ------------------------------------------------------------------ *)
(** ** JavaScript values *)

Inductive val :=
| VUndef
| VNull
| VBool (b : bool)
| VNum (n : float)
| VStr (s : string)
| VArr (xs : list val)
| VObj (fs : list (string * val)).

(** [ToBoolean]. *)
Definition truthy (v : val) : bool :=
  match v with
  | VUndef | VNull => false
  | VBool b => b
  | VNum n => negb (PrimFloat.eqb n fzero) && negb (is_nan n)
  | VStr s => negb (String.eqb s "")
  | VArr _ | VObj _ => true
  end.

Fixpoint assoc_get (k : string) (fs : list (string * val)) : option val :=
  match fs with
  | [] => None
  | (k', v) :: fs' => if String.eqb k k' then Some v else assoc_get k fs'
  end.

(** Decimal rendering of an array index, and its inverse on canonical
    index strings (no leading zeros). *)
Definition digit_char (d : nat) : ascii := ascii_of_nat (48 + d).

Fixpoint string_of_nat_aux (fuel n : nat) (acc : string) : string :=
  match fuel with
  | O => acc
  | S fuel' =>
      let acc' := String (digit_char (n mod 10)) acc in
      if Nat.ltb n 10 then acc' else string_of_nat_aux fuel' (n / 10) acc'
  end.

Definition string_of_nat (n : nat) : string := string_of_nat_aux (S n) n "".

Definition is_digit (c : ascii) : bool :=
  Nat.leb 48 (nat_of_ascii c) && Nat.leb (nat_of_ascii c) 57.

Definition digit_val (c : ascii) : nat := nat_of_ascii c - 48.

Fixpoint nat_of_digits (s : string) (acc : nat) : option nat :=
  match s with
  | EmptyString => Some acc
  | String c r => if is_digit c then nat_of_digits r (acc * 10 + digit_val c) else None
  end.

Definition array_index (k : string) : option nat :=
  match k with
  | EmptyString => None
  | String c r =>
      if Ascii.eqb c "0" then (if String.eqb r "" then Some 0 else None)
      else nat_of_digits k 0
  end.

Definition float_of_nat (n : nat) : float := of_uint63 (Uint63.of_Z (Z.of_nat n)).

(** Property read [v[k]] (the [TypeError] of reading a property of
    [undefined] or [null] is raised by [prop] in the monad below). *)
Definition get_prop (v : val) (k : string) : val :=
  match v with
  | VObj fs => match assoc_get k fs with Some x => x | None => VUndef end
  | VArr xs =>
      if String.eqb k "length" then VNum (float_of_nat (length xs))
      else match array_index k with
           | Some i => match xs !! i with Some x => x | None => VUndef end
           | None => VUndef
           end
  | VStr s =>
      if String.eqb k "length" then VNum (float_of_nat (String.length s))
      else match array_index k with
           | Some i => match String.get i s with Some c => VStr (String c "") | None => VUndef end
           | None => VUndef
           end
  | _ => VUndef
  end.

Definition nullish (v : val) : bool :=
  match v with VUndef | VNull => true | _ => false end.

(** [Object.keys]; [None] is the [TypeError] on [undefined] and [null]. *)
Definition object_keys (v : val) : option (list string) :=
  match v with
  | VUndef | VNull => None
  | VObj fs => Some (map fst fs)
  | VArr xs => Some (map string_of_nat (seq 0 (length xs)))
  | VStr s => Some (map string_of_nat (seq 0 (String.length s)))
  | _ => Some []
  end.

(* ------------------------------------------------------------------ *)
(** ** [parseFloat]

    [parseFloat] reads the longest prefix of [String(v)] (after leading
    white space) that is a decimal literal: an optional sign, then
    "Infinity" or digits with an optional fraction and exponent.  The value
    is computed as (integer of all the digits) scaled by a power of ten,
    which is the correctly rounded double when the digit string has at most
    15 digits and the net exponent is at most 22 in absolute value (all the
    prices Kraken sends); outside that range the result may differ from
    the engine's in the last place. *)

Open Scope float_scope.

Definition ten : float := of_uint63 10%uint63.
Definition hundred : float := of_uint63 100%uint63.

Fixpoint pow10 (n : nat) : float :=
  match n with O => PrimFloat.one | S n' => ten * pow10 n' end.

Fixpoint read_digits (s : string) (acc : float) (n : nat) : float * nat * string :=
  match s with
  | String c r =>
      if is_digit c then read_digits r (acc * ten + float_of_nat (digit_val c)) (S n)
      else (acc, n, s)
  | EmptyString => (acc, n, s)
  end.

Fixpoint read_nat (s : string) (acc n : nat) : nat * nat :=
  match s with
  | String c r => if is_digit c then read_nat r (Nat.min 400 (acc * 10 + digit_val c)) (S n) else (acc, n)
  | EmptyString => (acc, n)
  end.

Close Scope float_scope.

(** The exponent part: [(negative, magnitude)]; absent when no digit
    follows the [e]. *)
Definition read_exponent (s : string) : bool * nat :=
  match s with
  | String e r =>
      if Ascii.eqb e "e" || Ascii.eqb e "E" then
        let '(neg, r') :=
          match r with
          | String c r'' => if Ascii.eqb c "-" then (true, r'')
                            else if Ascii.eqb c "+" then (false, r'') else (false, r)
          | EmptyString => (false, r)
          end in
        let '(m, nd) := read_nat r' 0 0 in
        if Nat.eqb nd 0 then (false, 0) else (neg, m)
      else (false, 0)
  | EmptyString => (false, 0)
  end.

Definition is_js_space (c : ascii) : bool :=
  let n := nat_of_ascii c in (Nat.leb 9 n && Nat.leb n 13) || Nat.eqb n 32.

Fixpoint skip_space (s : string) : string :=
  match s with
  | String c r => if is_js_space c then skip_space r else s
  | EmptyString => s
  end.

Definition parse_unsigned (s : string) : float :=
  if String.prefix "Infinity" s then infinity
  else
    let '(m, ni, r) := read_digits s fzero 0 in
    let '(m', nf, r') :=
      match r with
      | String c r1 => if Ascii.eqb c "." then read_digits r1 m 0 else (m, 0, r)
      | EmptyString => (m, 0, r)
      end in
    if Nat.eqb (ni + nf) 0 then nan
    else
      let '(eneg, e) := read_exponent r' in
      let ex : Z := ((if eneg then - Z.of_nat e else Z.of_nat e) - Z.of_nat nf)%Z in
      if (0 <=? ex)%Z then (m' * pow10 (Z.to_nat ex))%float
      else (m' / pow10 (Z.to_nat (- ex)%Z))%float.

Definition parse_float_string (s : string) : float :=
  match skip_space s with
  | String c r =>
      if Ascii.eqb c "-" then (- parse_unsigned r)%float
      else if Ascii.eqb c "+" then parse_unsigned r
      else parse_unsigned (String c r)
  | EmptyString => nan
  end.

(** [parseFloat(v)] goes through [String(v)]: a number prints as a
    literal that reads back as itself, an array prints as its elements
    joined by commas (so its first element decides the prefix), and
    [undefined], [null], booleans and objects print as non-numeric text. *)
Fixpoint parseFloat (v : val) : float :=
  match v with
  | VStr s => parse_float_string s
  | VNum n => n
  | VArr (x :: _) => parseFloat x
  | _ => nan
  end.

(* ------------------------------------------------------------------ *)
(** ** The shared schema ([src/unnamed/part_003], [@shared/schema]) *)

Module TickerData.
Record t := mk {
    pair : string; name : string;
    lastPrice : float; change24h : float; changePercent24h : float;
    volume24h : float; high24h : float; low24h : float;
    bid : float; ask : float; spread : float; spreadPercent : float }.
End TickerData.

(** [marketDataSchema]: the ticker fields without [spread] and
    [spreadPercent]. *)
Module MarketData.
Record t := mk {
    pair : string; name : string;
    lastPrice : float; change24h : float; changePercent24h : float;
    volume24h : float; high24h : float; low24h : float;
    bid : float; ask : float }.
End MarketData.

Module OrderBookEntry.
Record t := mk { price : float; volume : float; timestamp : val }.
End OrderBookEntry.

Module OrderBook.
Record t := mk {
    pair : string; asks : list OrderBookEntry.t; bids : list OrderBookEntry.t;
    spread : float; spreadPercent : float }.
End OrderBook.

Module Trade.
Inductive side := buy | sell.
Record t := mk { price : float; volume : float; time : val; tside : side }.
End Trade.

Module RecentTrades.
Record t := mk { pair : string; trades : list Trade.t }.
End RecentTrades.

(** The object a record is when read as a JavaScript value (what
    [res.json] and [JSON.stringify] see). *)
Definition TickerData_to_val (r : TickerData.t) : val :=
  VObj [("pair", VStr (TickerData.pair r)); ("name", VStr (TickerData.name r));
        ("lastPrice", VNum (TickerData.lastPrice r)); ("change24h", VNum (TickerData.change24h r));
        ("changePercent24h", VNum (TickerData.changePercent24h r));
        ("volume24h", VNum (TickerData.volume24h r)); ("high24h", VNum (TickerData.high24h r));
        ("low24h", VNum (TickerData.low24h r)); ("bid", VNum (TickerData.bid r));
        ("ask", VNum (TickerData.ask r)); ("spread", VNum (TickerData.spread r));
        ("spreadPercent", VNum (TickerData.spreadPercent r))].

Definition MarketData_to_val (r : MarketData.t) : val :=
  VObj [("pair", VStr (MarketData.pair r)); ("name", VStr (MarketData.name r));
        ("lastPrice", VNum (MarketData.lastPrice r)); ("change24h", VNum (MarketData.change24h r));
        ("changePercent24h", VNum (MarketData.changePercent24h r));
        ("volume24h", VNum (MarketData.volume24h r)); ("high24h", VNum (MarketData.high24h r));
        ("low24h", VNum (MarketData.low24h r)); ("bid", VNum (MarketData.bid r));
        ("ask", VNum (MarketData.ask r))].

(* ------------------------------------------------------------------ *)
(** ** The server's world and its monad *)

(** [MemStorage] ([storage.ts], lines 26-84): three [Map]s keyed by pair,
    the market-data list and the last-updated date (milliseconds). *)
Record MemStorage := mkStorage {
  tickerData : gmap string TickerData.t;
  orderBooks : gmap string OrderBook.t;
  recentTrades : gmap string RecentTrades.t;
  marketData : list MarketData.t;
  lastUpdated : option Z }.

Definition new_MemStorage : MemStorage := mkStorage ∅ ∅ ∅ [] None.

(** The errors the pipeline throws. *)
Inductive exn :=
| HttpError (status : Z) (statusText : string)   (* [!response.ok] *)
| JsonSyntaxError                                (* [response.json()] *)
| ZodError                                       (* [krakenApiErrorSchema.parse] *)
| KrakenApiError (errors : list string)          (* non-empty [error] list *)
| TypeError                                      (* property of undefined/null *)
| NoDataFound (pair : string).                   (* [getMultipleTickers] *)

Inductive ready_state := CONNECTING | OPEN | CLOSING | CLOSED.

Record ws_client := mkClient { cid : nat; readyState : ready_state }.

(** The [data] of a WebSocket message; [PUndefined] is [data: undefined]. *)
Inductive payload :=
| PUndefined
| PTicker (t : TickerData.t)
| POrderBook (o : OrderBook.t)
| PTrades (r : RecentTrades.t)
| PMarket (m : MarketData.t).

Record ws_message := mkMsg { msg_type : string; msg_pair : string; msg_data : payload }.

Record http_response := mkResponse {
  ok : bool; status : Z; statusText : string;
  body : option val  (* [None]: the body is not JSON *) }.

Record world := mkWorld {
  storage : MemStorage;
  now : Z;                              (* [Date.now()] *)
  fetched : list string;                (* URLs passed to [fetch], in order *)
  clients : list ws_client;             (* [wss.clients] *)
  outbox : list (nat * ws_message) }.   (* [ws.send], by client id *)

Inductive outcome (A : Type) := Ok (a : A) | Throw (e : exn).
Arguments Ok {A} a.
Arguments Throw {A} e.

Definition M (A : Type) : Type := world -> outcome A * world.

#[global] Instance M_ret : MRet M := fun A a w => (Ok a, w).
#[global] Instance M_bind : MBind M := fun A B k m w =>
  match m w with
  | (Ok a, w') => k a w'
  | (Throw e, w') => (Throw e, w')
  end.

Definition throw {A} (e : exn) : M A := fun w => (Throw e, w).

(** [try { m } catch (e) { h(e) }]. *)
Definition try_catch {A} (m : M A) (h : exn -> M A) : M A := fun w =>
  match m w with
  | (Ok a, w') => (Ok a, w')
  | (Throw e, w') => h e w'
  end.

(** Runs [m] and returns how it ended (a settled promise). *)
Definition settle {A} (m : M A) : M (outcome A) := fun w =>
  let '(o, w') := m w in (Ok o, w').

Definition lift {A} (o : outcome A) : M A := fun w => (o, w).

Definition get_world : M world := fun w => (Ok w, w).

Definition modify_storage (f : MemStorage -> MemStorage) : M unit := fun w =>
  (Ok tt, mkWorld (f (storage w)) (now w) (fetched w) (clients w) (outbox w)).

Definition new_Date : M Z := fun w => (Ok (now w), w).

(** [console.error] / [console.warn]: no observable state. *)
Definition console_error : M unit := mret tt.

(** [v[k]] with the [TypeError] of [undefined[k]] and [null[k]]. *)
Definition prop (v : val) (k : string) : outcome val :=
  if nullish v then Throw TypeError else Ok (get_prop v k).

Definition idx (v : val) (i : nat) : outcome val := prop v (string_of_nat i).

Definition obind {A B} (o : outcome A) (k : A -> outcome B) : outcome B :=
  match o with Ok a => k a | Throw e => Throw e end.

Notation "'let?' x := o 'in' k" := (obind o (fun x => k))
  (at level 200, x name, o at level 100, k at level 200).

Fixpoint mapM_outcome {A B} (f : A -> outcome B) (xs : list A) : outcome (list B) :=
  match xs with
  | [] => Ok []
  | x :: xs' => let? y := f x in let? ys := mapM_outcome f xs' in Ok (y :: ys)
  end.

(** [v.map(f)] on a parsed JSON value: only arrays have a [map] method. *)
Definition array_map {A} (v : val) (f : val -> outcome A) : outcome (list A) :=
  match v with
  | VArr xs => mapM_outcome f xs
  | _ => Throw TypeError
  end.

(* ------------------------------------------------------------------ *)
(** ** [MemStorage] methods ([storage.ts], lines 41-83) *)

Module Storage.

Definition setTickerData (pair : string) (data : TickerData.t) : M unit :=
  modify_storage (fun s => mkStorage (<[pair:=data]> (tickerData s)) (orderBooks s)
                             (recentTrades s) (marketData s) (lastUpdated s)).

Definition getTickerData (pair : string) : M (option TickerData.t) := fun w =>
  (Ok (tickerData (storage w) !! pair), w).

Definition setOrderBook (pair : string) (data : OrderBook.t) : M unit :=
  modify_storage (fun s => mkStorage (tickerData s) (<[pair:=data]> (orderBooks s))
                             (recentTrades s) (marketData s) (lastUpdated s)).

Definition getOrderBook (pair : string) : M (option OrderBook.t) := fun w =>
  (Ok (orderBooks (storage w) !! pair), w).

Definition setRecentTrades (pair : string) (data : RecentTrades.t) : M unit :=
  modify_storage (fun s => mkStorage (tickerData s) (orderBooks s)
                             (<[pair:=data]> (recentTrades s)) (marketData s) (lastUpdated s)).

Definition getRecentTrades (pair : string) : M (option RecentTrades.t) := fun w =>
  (Ok (recentTrades (storage w) !! pair), w).

Definition setMarketData (data : list MarketData.t) : M unit :=
  modify_storage (fun s => mkStorage (tickerData s) (orderBooks s) (recentTrades s)
                             data (lastUpdated s)).

Definition getMarketData : M (list MarketData.t) := fun w =>
  (Ok (marketData (storage w)), w).

Definition getLastUpdated : M (option Z) := fun w => (Ok (lastUpdated (storage w)), w).

Definition setLastUpdated (date : Z) : M unit :=
  modify_storage (fun s => mkStorage (tickerData s) (orderBooks s) (recentTrades s)
                             (marketData s) (Some date)).

(** [getAllTickerData]: [Array.from(this.tickerData.values())].  The
    [Map]'s insertion order is not recorded by the gmap model, which lists
    the values in its own order; only order-free facts are stated about
    this list. *)
Definition getAllTickerData : M (list TickerData.t) := fun w =>
  (Ok (map snd (map_to_list (tickerData (storage w)))), w).

End Storage.

(* ------------------------------------------------------------------ *)
(** ** String helpers for the symbol tables *)

Fixpoint includes (s sub : string) : bool :=
  String.prefix sub s ||
  match s with EmptyString => false | String _ r => includes r sub end.

(** [s.replace(/[cs]/g, '')]. *)
Fixpoint remove_chars (cs : list ascii) (s : string) : string :=
  match s with
  | EmptyString => EmptyString
  | String c r =>
      if existsb (Ascii.eqb c) cs then remove_chars cs r else String c (remove_chars cs r)
  end.

(** [s.split('/')[0]]. *)
Fixpoint before_slash (s : string) : string :=
  match s with
  | EmptyString => EmptyString
  | String c r => if Ascii.eqb c "/" then EmptyString else String c (before_slash r)
  end.

(** [s.replace('X', '')]: a string pattern replaces its first occurrence
    only. *)
Fixpoint replace_first (c : ascii) (s : string) : string :=
  match s with
  | EmptyString => EmptyString
  | String c' r => if Ascii.eqb c' c then r else String c' (replace_first c r)
  end.

Fixpoint lookup_table {A} (k : string) (t : list (string * A)) : option A :=
  match t with
  | [] => None
  | (k', a) :: t' => if String.eqb k k' then Some a else lookup_table k t'
  end.

(** [pairs.join(',')]. *)
Fixpoint join_comma (xs : list string) : string :=
  match xs with
  | [] => ""
  | [x] => x
  | x :: xs' => x ++ "," ++ join_comma xs'
  end.

(* ------------------------------------------------------------------ *)
(** ** [KrakenApiService] ([storage.ts], lines 91-387) *)

Module Kraken.

Definition baseUrl : string := "https://api.kraken.com/0".

(** [krakenApiErrorSchema.parse]: an object whose [error] is an array of
    strings; [result] is optional and of any shape. *)
Fixpoint strings_of (xs : list val) : option (list string) :=
  match xs with
  | [] => Some []
  | VStr s :: xs' => match strings_of xs' with Some ss => Some (s :: ss) | None => None end
  | _ => None
  end.

Definition krakenApiErrorSchema_parse (d : val) : option (list string * val) :=
  match d with
  | VObj fs =>
      match assoc_get "error" fs with
      | Some (VArr es) =>
          match strings_of es with
          | Some errs => Some (errs, match assoc_get "result" fs with Some r => r | None => VUndef end)
          | None => None
          end
      | _ => None
      end
  | _ => None
  end.

(** [getPairDisplayName]. *)
Definition names : list (string * string) :=
  [("XBTUSD", "Bitcoin"); ("ETHUSD", "Ethereum"); ("ADAUSD", "Cardano");
   ("DOTUSD", "Polkadot"); ("SOLUSD", "Solana"); ("MATICUSD", "Polygon");
   ("LINKUSD", "Chainlink"); ("UNIUSD", "Uniswap");
   ("BTC/USD", "Bitcoin"); ("ETH/USD", "Ethereum"); ("ADA/USD", "Cardano");
   ("DOT/USD", "Polkadot"); ("SOL/USD", "Solana"); ("MATIC/USD", "Polygon");
   ("LINK/USD", "Chainlink"); ("UNI/USD", "Uniswap")].

Definition getPairDisplayName (pair : string) : string :=
  match lookup_table pair names with Some n => n | None => before_slash pair end.

(** The alias table of [getMultipleTickers]. *)
Definition krakenPairMap : list (string * list string) :=
  [("XBTUSD", ["XXBTZUSD"; "XBTUSD"]); ("ETHUSD", ["XETHZUSD"; "ETHUSD"]);
   ("ADAUSD", ["ADAUSD"]); ("DOTUSD", ["DOTUSD"]); ("SOLUSD", ["SOLUSD"]);
   ("MATICUSD", ["MATICUSD"]); ("LINKUSD", ["LINKUSD"]); ("UNIUSD", ["UNIUSD"])].

(** [const pairKey = Object.keys(result)[0]; const data = result[pairKey];]
    (an empty key list makes [pairKey] undefined, read as "undefined"). *)
Definition first_entry (result : val) : outcome val :=
  match object_keys result with
  | None => Throw TypeError
  | Some keys => prop result (match keys with k :: _ => k | [] => "undefined" end)
  end.

(** The object literal built by [getTickerData] from the entry [data]. *)
Definition ticker_record (pair : string) (data : val) : outcome TickerData.t :=
  let? c := prop data "c" in let? c0 := idx c 0 in
  let? o := prop data "o" in
  let? v := prop data "v" in let? v1 := idx v 1 in
  let? h := prop data "h" in let? h1 := idx h 1 in
  let? l := prop data "l" in let? l1 := idx l 1 in
  let? b := prop data "b" in let? b0 := idx b 0 in
  let? a := prop data "a" in let? a0 := idx a 0 in
  Ok (TickerData.mk pair (getPairDisplayName pair)
        (parseFloat c0)
        (parseFloat c0 - parseFloat o)%float
        (((parseFloat c0 - parseFloat o) / parseFloat o) * hundred)%float
        (parseFloat v1) (parseFloat h1) (parseFloat l1)
        (parseFloat b0) (parseFloat a0)
        (parseFloat a0 - parseFloat b0)%float
        (((parseFloat a0 - parseFloat b0) / parseFloat b0) * hundred)%float).

(** The object literal built by [getMultipleTickers] for one pair. *)
Definition market_record (pair : string) (data : val) : outcome MarketData.t :=
  let? c := prop data "c" in let? c0 := idx c 0 in
  let? o := prop data "o" in
  let? v := prop data "v" in let? v1 := idx v 1 in
  let? h := prop data "h" in let? h1 := idx h 1 in
  let? l := prop data "l" in let? l1 := idx l 1 in
  let? b := prop data "b" in let? b0 := idx b 0 in
  let? a := prop data "a" in let? a0 := idx a 0 in
  Ok (MarketData.mk pair (getPairDisplayName pair)
        (parseFloat c0)
        (parseFloat c0 - parseFloat o)%float
        (((parseFloat c0 - parseFloat o) / parseFloat o) * hundred)%float
        (parseFloat v1) (parseFloat h1) (parseFloat l1)
        (parseFloat b0) (parseFloat a0)).

(** [asks.map(ask => ({price, volume, timestamp}))]. *)
Definition book_entry (e : val) : outcome OrderBookEntry.t :=
  let? p := idx e 0 in let? v := idx e 1 in let? t := idx e 2 in
  Ok (OrderBookEntry.mk (parseFloat p) (parseFloat v) t).

Definition best_price (entries : list OrderBookEntry.t) : float :=
  match entries with e :: _ => OrderBookEntry.price e | [] => fzero end.

Definition trade_of (t : val) : outcome Trade.t :=
  let? p := idx t 0 in let? v := idx t 1 in let? tm := idx t 2 in let? s := idx t 3 in
  Ok (Trade.mk (parseFloat p) (parseFloat v) tm
        (match s with VStr "b" => Trade.buy | _ => Trade.sell end)).

(** The [for (const key of possibleKeys)] loop: the first key whose
    [result[key]] is truthy, or [''] when there is none. *)
Fixpoint first_present (result : val) (keys : list string) : outcome string :=
  match keys with
  | [] => Ok ""
  | k :: ks => let? v := prop result k in if truthy v then Ok k else first_present result ks
  end.

Definition possible_keys (pair : string) : list string :=
  match lookup_table pair krakenPairMap with Some ks => ks | None => [pair] end.

(** The fuzzy fallback: [Object.keys(result).find(...) || ''] *)
Definition fuzzy_key (result : val) (pair : string) : outcome string :=
  match object_keys result with
  | None => Throw TypeError
  | Some keys =>
      Ok (match List.find (fun key =>
                  includes (remove_chars ["X"; "Z"]%char key) (remove_chars ["X"; "Z"; "/"]%char pair)
                  || includes key pair) keys with
          | Some k => k | None => "" end)
  end.

(** [pairKey] as computed in the [pairs.map] callback (lines 269-286). *)
Definition resolve_pair_key (result : val) (pair : string) : outcome string :=
  let? pairKey := first_present result (possible_keys pair) in
  if String.eqb pairKey "" then fuzzy_key result pair else Ok pairKey.

(** The whole [pairs.map] callback (lines 256-307). *)
Definition multiple_ticker_entry (result : val) (pair : string) : outcome MarketData.t :=
  let? pairKey := resolve_pair_key result pair in
  if String.eqb pairKey "" then Throw (NoDataFound pair)
  else let? data := prop result pairKey in
       if negb (truthy data) then Throw (NoDataFound pair)
       else market_record pair data.

(** [getPairIcon] (lines 333-342). *)
Definition icons : list (string * string) :=
  [("BTC", "fab fa-bitcoin"); ("ETH", "fab fa-ethereum"); ("XBT", "fab fa-bitcoin")].

Definition getPairIcon (pair : string) : string :=
  let symbol := replace_first "X" (before_slash pair) in
  match lookup_table symbol icons with Some i => i | None => "fas fa-coins" end.

(** [getPairColor] (lines 344-359). *)
Definition colors : list (string * string) :=
  [("BTC", "bg-orange-500"); ("ETH", "bg-blue-500"); ("ADA", "bg-green-500");
   ("DOT", "bg-purple-500"); ("SOL", "bg-pink-500"); ("MATIC", "bg-indigo-500");
   ("LINK", "bg-blue-600"); ("UNI", "bg-pink-400"); ("XBT", "bg-orange-500")].

Definition getPairColor (pair : string) : string :=
  let symbol := replace_first "X" (before_slash pair) in
  match lookup_table symbol colors with Some c => c | None => "bg-gray-500" end.

(** The object returned by [getAuthenticationStatus] (lines 366-373). *)
Record auth_status := mkAuthStatus {
  st_isAuthenticated : bool; st_rateLimitMs : Z;
  apiKeyConfigured : bool; privateKeyConfigured : bool }.

Section Api.

(** The upstream: [None] when [fetch] itself rejects. *)
Variable net : string -> option http_response.

Definition rateLimitedFetch (url : string) : M http_response := fun w =>
  let w' := mkWorld (storage w) (now w) (fetched w ++ [url]) (clients w) (outbox w) in
  match net url with
  | Some r => (Ok r, w')
  | None => (Throw TypeError, w')
  end.

Definition makeRequest (endpoint : string) : M val :=
  try_catch
    (response ← rateLimitedFetch (baseUrl ++ endpoint);
     if negb (ok response) then throw (HttpError (status response) (statusText response))
     else match body response with
          | None => throw JsonSyntaxError
          | Some data =>
              match krakenApiErrorSchema_parse data with
              | None => throw ZodError
              | Some (errs, result) =>
                  if Nat.ltb 0 (length errs) then throw (KrakenApiError errs)
                  else mret result
              end
          end)
    (fun error => console_error;; throw error).

Definition getTickerData (pair : string) : M TickerData.t :=
  result ← makeRequest ("/public/Ticker?pair=" ++ pair);
  lift (let? data := first_entry result in ticker_record pair data).

Definition getOrderBook (pair : string) (count : nat) : M OrderBook.t :=
  result ← makeRequest ("/public/Depth?pair=" ++ pair ++ "&count=" ++ string_of_nat count);
  lift (let? data := first_entry result in
        let? av := prop data "asks" in let? asks := array_map av book_entry in
        let? bv := prop data "bids" in let? bids := array_map bv book_entry in
        let bestAsk := best_price asks in
        let bestBid := best_price bids in
        let spread := (bestAsk - bestBid)%float in
        let spreadPercent :=
          if PrimFloat.ltb fzero bestBid then ((spread / bestBid) * hundred)%float else fzero in
        Ok (OrderBook.mk pair asks bids spread spreadPercent)).

Definition getRecentTrades (pair : string) (count : nat) : M RecentTrades.t :=
  result ← makeRequest ("/public/Trades?pair=" ++ pair ++ "&count=" ++ string_of_nat count);
  lift (let? trades := first_entry result in
        let? processedTrades := array_map trades trade_of in
        Ok (RecentTrades.mk pair processedTrades)).

Definition getMultipleTickers (pairs : list string) : M (list MarketData.t) :=
  result ← makeRequest ("/public/Ticker?pair=" ++ join_comma pairs);
  lift (mapM_outcome (multiple_ticker_entry result) pairs).


(** [getSystemStatus] (lines 384-386). *)
Definition getSystemStatus : M val := makeRequest "/public/SystemStatus".

End Api.

(** The members that read [process.env.KRAKEN_API_KEY] and
    [process.env.KRAKEN_PRIVATE_KEY] (lines 93-96, 111-129, 362-373). *)
Section Private.

(** The upstream for POST requests: URL and request body. *)
Variable post_net : string -> string -> option http_response.
Variables apiKey privateKey : option string.

(** [process.env.X]: a string or [undefined]. *)
Definition env_val (o : option string) : val :=
  match o with Some s => VStr s | None => VUndef end.

Definition rateLimitMs : Z := if truthy (env_val apiKey) then 500 else 1000.

(** [!!(this.apiKey && this.privateKey)]. *)
Definition isAuthenticated : bool := truthy (env_val apiKey) && truthy (env_val privateKey).

Definition getAuthenticationStatus : auth_status :=
  mkAuthStatus isAuthenticated rateLimitMs
    (truthy (env_val apiKey)) (truthy (env_val privateKey)).

(** [rateLimitedFetch(url, {method: 'POST', headers, body})]. *)
Definition rateLimitedPost (url body : string) : M http_response := fun w =>
  let w' := mkWorld (storage w) (now w) (fetched w ++ [url]) (clients w) (outbox w) in
  match post_net url body with
  | Some r => (Ok r, w')
  | None => (Throw TypeError, w')
  end.

(** [makePrivateRequest] (lines 153-180) past [generateAuthHeaders], whose
    credential check passes whenever [isAuthenticated()] holds, as it does
    at the only call (from [getAccountBalance], after its own check).  The
    signed headers are not modelled; [post_net] sees the URL and the
    [nonce=...&data] body. *)
Definition makePrivateRequest (endpoint data : string) : M val :=
  try_catch
    (nonce ← new_Date;
     let postData := "nonce=" ++ string_of_nat (Z.to_nat nonce) ++ "&" ++ data in
     response ← rateLimitedPost (baseUrl ++ endpoint) postData;
     if negb (ok response) then throw (HttpError (status response) (statusText response))
     else match body response with
          | None => throw JsonSyntaxError
          | Some d =>
              match krakenApiErrorSchema_parse d with
              | None => throw ZodError
              | Some (errs, result) =>
                  if Nat.ltb 0 (length errs) then throw (KrakenApiError errs)
                  else mret result
              end
          end)
    (fun error => console_error;; throw error).

(** [getAccountBalance] (lines 376-381) past its [isAuthenticated()]
    guard, which its only caller has already checked. *)
Definition getAccountBalance : M val := makePrivateRequest "/private/Balance" "".

End Private.

End Kraken.

(* ------------------------------------------------------------------ *)
(** ** Promises

    An [async] function runs its body when called (in this model, to the
    end) and hands back a [Promise] object; [await] reads its settled
    value.  A [Promise] is an object, so it is truthy. *)

Inductive js_promise (A : Type) := promise_of (settled : outcome A).
Arguments promise_of {A} settled.

Definition call_async {A} (m : M A) : M (js_promise A) :=
  o ← settle m; mret (promise_of o).

Definition await_promise {A} (p : js_promise A) : M A :=
  match p with promise_of o => lift o end.

Definition promise_truthy {A} (p : js_promise A) : bool := true.

(** [l || r], with [r] evaluated only when [l] is falsy. *)
Definition js_or_promise {A} (l : js_promise A) (r : unit -> M (js_promise A)) : M (js_promise A) :=
  if promise_truthy l then mret l else r tt.

(** [await Promise.all([p1, p2])] on two started calls: both run whatever
    the other does; the first rejection (in array order) is rethrown. *)
Definition promise_all2 {A B} (o1 : outcome A) (o2 : outcome B) : M (A * B) :=
  match o1, o2 with
  | Ok a, Ok b => mret (a, b)
  | Throw e, _ => throw e
  | _, Throw e => throw e
  end.

(* ------------------------------------------------------------------ *)
(** ** The server ([src/server/routes.ts]) *)

Module Routes.

Definition POPULAR_PAIRS : list string :=
  ["XBTUSD"; "ETHUSD"; "ADAUSD"; "DOTUSD"; "SOLUSD"; "MATICUSD"; "LINKUSD"; "UNIUSD"].

Inductive reply_body :=
| BTicker (t : TickerData.t)
| BOrderBook (o : OrderBook.t)
| BTrades (r : RecentTrades.t)
| BMarket (ms : list MarketData.t)
| BRefresh (success : bool) (message : string).

(** [res.json(...)] with status 200, or [res.status(500).json({error, message})]. *)
Inductive reply :=
| Status200 (b : reply_body)
| Status500 (error : string) (message : string).

Fixpoint join_sep (sep : string) (xs : list string) : string :=
  match xs with
  | [] => ""
  | [x] => x
  | x :: xs' => x ++ sep ++ join_sep sep xs'
  end.

(** [error.message]; the texts the engine or Zod produce for the last
    three kinds are abstracted to a fixed string. *)
Definition message (e : exn) : string :=
  match e with
  | HttpError s t => "HTTP " ++ string_of_nat (Z.to_nat s) ++ ": " ++ t
  | KrakenApiError errs => "Kraken API Error: " ++ join_sep ", " errs
  | NoDataFound p => "No data found for pair " ++ p
  | JsonSyntaxError => "SyntaxError"
  | ZodError => "ZodError"
  | TypeError => "TypeError"
  end.

(** [parseInt(req.query.count as string) || d], with the parsed query
    given as [None] for [NaN]. *)
Definition count_or (q : option nat) (d : nat) : nat :=
  match q with Some n => if Nat.eqb n 0 then d else n | None => d end.

(** The parsed WebSocket message: a [subscribe] with its optional
    [pairs] array (of strings), or anything else. *)
Inductive client_msg :=
| Subscribe (pairs : option (list string))
| OtherMessage.

Definition ws_is_open (id : nat) : M bool := fun w =>
  (Ok (existsb (fun c => Nat.eqb (cid c) id &&
                  match readyState c with OPEN => true | _ => false end) (clients w)), w).

Definition ws_send (id : nat) (m : ws_message) : M unit := fun w =>
  (Ok tt, mkWorld (storage w) (now w) (fetched w) (clients w) (outbox w ++ [(id, m)])).

Definition ticker_payload (t : option TickerData.t) : payload :=
  match t with Some x => PTicker x | None => PUndefined end.
Definition orderbook_payload (o : option OrderBook.t) : payload :=
  match o with Some x => POrderBook x | None => PUndefined end.
Definition trades_payload (r : option RecentTrades.t) : payload :=
  match r with Some x => PTrades x | None => PUndefined end.

Section Handlers.

Variable net : string -> option http_response.

(** [GET /api/ticker/:pair] (lines 12-25). *)
Definition get_ticker (pair : string) : M reply :=
  try_catch
    (data ← Kraken.getTickerData net pair;
     Storage.setTickerData pair data;;
     mret (Status200 (BTicker data)))
    (fun error => console_error;; mret (Status500 "Failed to fetch ticker data" (message error))).

(** [GET /api/orderbook/:pair] (lines 28-42). *)
Definition get_orderbook (pair : string) (q : option nat) : M reply :=
  try_catch
    (let count := count_or q 5 in
     data ← Kraken.getOrderBook net pair count;
     Storage.setOrderBook pair data;;
     mret (Status200 (BOrderBook data)))
    (fun error => console_error;; mret (Status500 "Failed to fetch order book" (message error))).

(** [GET /api/trades/:pair] (lines 45-59). *)
Definition get_trades (pair : string) (q : option nat) : M reply :=
  try_catch
    (let count := count_or q 100 in
     data ← Kraken.getRecentTrades net pair count;
     Storage.setRecentTrades pair data;;
     mret (Status200 (BTrades data)))
    (fun error => console_error;; mret (Status500 "Failed to fetch recent trades" (message error))).

(** [GET /api/market-data] (lines 62-75). *)
Definition get_market_data : M reply :=
  try_catch
    (data ← Kraken.getMultipleTickers net POPULAR_PAIRS;
     Storage.setMarketData data;;
     d ← new_Date;
     Storage.setLastUpdated d;;
     mret (Status200 (BMarket data)))
    (fun error => console_error;; mret (Status500 "Failed to fetch market data" (message error))).

(** One iteration of the per-pair loop of [POST /api/refresh]
    (lines 166-176). *)
Definition refresh_pair (pair : string) : M unit :=
  try_catch
    (ob ← settle (Kraken.getOrderBook net pair 10);
     tr ← settle (Kraken.getRecentTrades net pair 50);
     '(orderBook, trades) ← promise_all2 ob tr;
     Storage.setOrderBook pair orderBook;;
     Storage.setRecentTrades pair trades)
    (fun error => console_error).

Fixpoint refresh_pairs (pairs : list string) : M unit :=
  match pairs with
  | [] => mret tt
  | p :: rest => refresh_pair p;; refresh_pairs rest
  end.

(** [POST /api/refresh] (lines 158-188). *)
Definition post_refresh : M reply :=
  try_catch
    (marketData ← Kraken.getMultipleTickers net POPULAR_PAIRS;
     Storage.setMarketData marketData;;
     refresh_pairs POPULAR_PAIRS;;
     d ← new_Date;
     Storage.setLastUpdated d;;
     mret (Status200 (BRefresh true "Data refreshed successfully")))
    (fun error => console_error;; mret (Status500 "Failed to refresh data" (message error))).

(** The initial push for one pair of a [subscribe] (lines 208-236). *)
Definition initial_push (ws : nat) (pair : string) : M unit :=
  try_catch
    (l1 ← call_async (Storage.getTickerData pair);
     p1 ← js_or_promise l1 (fun _ => call_async (t ← Kraken.getTickerData net pair; mret (Some t)));
     l2 ← call_async (Storage.getOrderBook pair);
     p2 ← js_or_promise l2 (fun _ => call_async (o ← Kraken.getOrderBook net pair 5; mret (Some o)));
     l3 ← call_async (Storage.getRecentTrades pair);
     p3 ← js_or_promise l3 (fun _ => call_async (r ← Kraken.getRecentTrades net pair 20; mret (Some r)));
     ticker ← await_promise p1;
     orderBook ← await_promise p2;
     trades ← await_promise p3;
     is_open ← ws_is_open ws;
     if (is_open : bool) then
       (ws_send ws (mkMsg "ticker" pair (ticker_payload ticker));;
        ws_send ws (mkMsg "orderBook" pair (orderbook_payload orderBook));;
        ws_send ws (mkMsg "trades" pair (trades_payload trades)))
     else mret tt)
    (fun error => console_error).

Fixpoint initial_push_all (ws : nat) (pairs : list string) : M unit :=
  match pairs with
  | [] => mret tt
  | p :: rest => initial_push ws p;; initial_push_all ws rest
  end.

(** [ws.on('message', ...)] (lines 198-242), after [JSON.parse]. *)
Definition on_message (ws : nat) (data : client_msg) : M unit :=
  try_catch
    (match data with
     | Subscribe ps =>
         let pairs := match ps with Some xs => xs | None => POPULAR_PAIRS end in
         initial_push_all ws pairs
     | OtherMessage => mret tt
     end)
    (fun error => console_error).

(** Sending one ticker message to every open client (lines 275-279). *)
Definition broadcast (m : ws_message) : M unit := fun w =>
  (Ok tt, mkWorld (storage w) (now w) (fetched w) (clients w)
            (outbox w ++ map (fun c => (cid c, m))
                             (List.filter (fun c => match readyState c with OPEN => true | _ => false end)
                                     (clients w)))).

Fixpoint broadcast_all (marketData : list MarketData.t) : M unit :=
  match marketData with
  | [] => mret tt
  | ticker :: rest =>
      broadcast (mkMsg "ticker" (MarketData.pair ticker) (PMarket ticker));;
      broadcast_all rest
  end.

(** The 15-second [setInterval] callback (lines 259-284). *)
Definition broadcast_tick : M unit :=
  w ← get_world;
  if Nat.eqb (length (clients w)) 0 then mret tt
  else
    try_catch
      (marketData ← Kraken.getMultipleTickers net POPULAR_PAIRS;
       Storage.setMarketData marketData;;
       broadcast_all marketData)
      (fun error => console_error).

End Handlers.

End Routes.

(** [GET /api/cached/:type/:pair?] (routes.ts, lines 78-125). *)
Module CachedRoute.

Inductive body :=
| CTicker (t : option TickerData.t)              (* [data || null] *)
| CAllTickers (ts : list TickerData.t)
| COrderBook (o : option OrderBook.t)
| CTrades (r : option RecentTrades.t)
| CMarket (data : list MarketData.t) (lastUpdated : option Z).

Inductive reply :=
| Status200 (b : body)
| Status400 (error : string)
| Status500 (error : string) (message : string).

(** [if (pair)]: the optional route parameter, when it is truthy. *)
Definition present (pair : option string) : option string :=
  match pair with Some p => if truthy (VStr p) then Some p else None | None => None end.

Definition get_cached (type : string) (pair : option string) : M reply :=
  try_catch
    (if String.eqb type "ticker" then
       match present pair with
       | Some p => data ← Storage.getTickerData p; mret (Status200 (CTicker data))
       | None => data ← Storage.getAllTickerData; mret (Status200 (CAllTickers data))
       end
     else if String.eqb type "orderbook" then
       match present pair with
       | None => mret (Status400 "Pair required for order book")
       | Some p => orderBook ← Storage.getOrderBook p; mret (Status200 (COrderBook orderBook))
       end
     else if String.eqb type "trades" then
       match present pair with
       | None => mret (Status400 "Pair required for trades")
       | Some p => trades ← Storage.getRecentTrades p; mret (Status200 (CTrades trades))
       end
     else if String.eqb type "market-data" then
       marketData ← Storage.getMarketData;
       lastUpdated ← Storage.getLastUpdated;
       mret (Status200 (CMarket marketData lastUpdated))
     else mret (Status400 "Invalid type"))
    (fun error => console_error;;
                  mret (Status500 "Failed to fetch cached data" (Routes.message error))).

End CachedRoute.

(** [GET /api/auth-status] (routes.ts, lines 128-155). *)
Module AuthStatusRoute.

(** The [account] field: [null], the balance, or
    [{error: 'Failed to fetch account balance'}]. *)
Inductive account_info :=
| AccountNull
| AccountBalance (v : val)
| AccountError.

Inductive reply :=
| Status200 (authentication : Kraken.auth_status) (account : account_info) (systemStatus : val)
| Status500 (error : string) (message : string).

Section Handler.

Variable net : string -> option http_response.
Variable post_net : string -> string -> option http_response.
Variables apiKey privateKey : option string.

Definition get_auth_status : M reply :=
  try_catch
    (let authStatus := Kraken.getAuthenticationStatus apiKey privateKey in
     accountInfo ← (if Kraken.st_isAuthenticated authStatus then
                      try_catch
                        (b ← Kraken.getAccountBalance post_net; mret (AccountBalance b))
                        (fun error => console_error;; mret AccountError)
                    else mret AccountNull);
     systemStatus ← Kraken.getSystemStatus net;
     mret (Status200 authStatus accountInfo systemStatus))
    (fun error => console_error;;
                  mret (Status500 "Failed to fetch authentication status" (Routes.message error))).

End Handler.

End AuthStatusRoute.

(** The client's market-data cache update on a [ticker] message
    ([useWebSocketData], [ws.onmessage], part_003 lines 164-172). *)
Module ClientCache.

(** [===] on parsed JSON values: objects and arrays from different
    [JSON.parse] calls are different references. *)
Definition strict_eq (a b : val) : bool :=
  match a, b with
  | VUndef, VUndef | VNull, VNull => true
  | VBool x, VBool y => Bool.eqb x y
  | VNum x, VNum y => PrimFloat.eqb x y
  | VStr x, VStr y => String.eqb x y
  | _, _ => false
  end.

(** Defining property [k] on an object: an existing key keeps its place. *)
Fixpoint set_key (k : string) (v : val) (fs : list (string * val)) : list (string * val) :=
  match fs with
  | [] => [(k, v)]
  | (k', v') :: r => if String.eqb k k' then (k', v) :: r else (k', v') :: set_key k v r
  end.

(** The own enumerable properties copied by [{...v}]. *)
Definition own_entries (v : val) : list (string * val) :=
  match v with
  | VObj fs => fs
  | VArr xs => imap (fun i x => (string_of_nat i, x)) xs
  | VStr s => imap (fun i c => (string_of_nat i, VStr (String c ""))) (Stdlib.Strings.String.list_ascii_of_string s)
  | _ => []
  end.

Definition object_spread (acc : list (string * val)) (v : val) : list (string * val) :=
  fold_left (fun a kv => set_key (fst kv) (snd kv) a) (own_entries v) acc.

(** [xs.some(f)], stopping at the first [true]. *)
Fixpoint some_outcome (f : val -> outcome bool) (xs : list val) : outcome bool :=
  match xs with
  | [] => Ok false
  | x :: r => let? b := f x in if b then Ok true else some_outcome f r
  end.

(** The updater passed to [setQueryData(['/api/market-data'], ...)]. *)
Definition market_cache_update (oldData msg_pair msg_data : val) : outcome val :=
  if negb (truthy oldData) then Ok (VArr [msg_data])
  else
    let? updated := array_map oldData (fun item =>
      let? ip := prop item "pair" in
      Ok (if strict_eq ip msg_pair
          then VObj (object_spread (object_spread [] item) msg_data) else item)) in
    let? found := some_outcome (fun item =>
      let? ip := prop item "pair" in Ok (strict_eq ip msg_pair)) updated in
    Ok (if found then VArr updated else VArr (updated ++ [msg_data])).

End ClientCache.

(* ------------------------------------------------------------------ *)
(** ** Specification-side notions *)

(** The world after [fetch(url)]. *)
Definition add_fetch (w : world) (url : string) : world :=
  mkWorld (storage w) (now w) (fetched w ++ [url]) (clients w) (outbox w).

Definition with_now (w : world) (t : Z) : world :=
  mkWorld (storage w) t (fetched w) (clients w) (outbox w).

Definition is_throw {A} (o : outcome A) : bool :=
  match o with Throw _ => true | Ok _ => false end.

(** An upstream answer whose envelope carries a non-empty error list,
    e.g. [{error: ["EGeneral:Invalid arguments"], result: null}], whatever
    the HTTP status. *)
Definition error_envelope (r : option http_response) : Prop :=
  exists resp fs errs,
    r = Some resp /\ body resp = Some (VObj fs) /\
    assoc_get "error" fs = Some (VArr (map VStr errs)) /\ errs <> [].

(** A record carrying [spread = ask - bid] and
    [spreadPercent = spread / bid * 100], read as a JavaScript object. *)
Definition has_spread_fields (o : val) : Prop :=
  exists a b,
    get_prop o "ask" = VNum a /\ get_prop o "bid" = VNum b /\
    get_prop o "spread" = VNum (a - b)%float /\
    get_prop o "spreadPercent" = VNum (((a - b) / b) * hundred)%float.

(** A ticker record without its two spread fields. *)
Definition ticker_without_spread (t : TickerData.t) : MarketData.t :=
  MarketData.mk (TickerData.pair t) (TickerData.name t) (TickerData.lastPrice t)
    (TickerData.change24h t) (TickerData.changePercent24h t) (TickerData.volume24h t)
    (TickerData.high24h t) (TickerData.low24h t) (TickerData.bid t) (TickerData.ask t).

Definition depth_url (pair : string) (count : nat) : string :=
  Kraken.baseUrl ++ "/public/Depth?pair=" ++ pair ++ "&count=" ++ string_of_nat count.
Definition trades_url (pair : string) (count : nat) : string :=
  Kraken.baseUrl ++ "/public/Trades?pair=" ++ pair ++ "&count=" ++ string_of_nat count.
Definition ticker_url (pairs : string) : string :=
  Kraken.baseUrl ++ "/public/Ticker?pair=" ++ pairs.

(** The property names every plain object inherits from
    [Object.prototype]: a lookup [table[key]] on an object literal finds
    these even when the literal does not define them. *)
Definition object_prototype_members : list string :=
  ["constructor"; "__defineGetter__"; "__defineSetter__"; "hasOwnProperty";
   "__lookupGetter__"; "__lookupSetter__"; "isPrototypeOf"; "propertyIsEnumerable";
   "toString"; "valueOf"; "__proto__"; "toLocaleString"].

(** The two URLs of [GET /api/auth-status]. *)
Definition status_url : string := Kraken.baseUrl ++ "/public/SystemStatus".
Definition balance_url : string := Kraken.baseUrl ++ "/private/Balance".

(** The clients a broadcast reaches: those whose [readyState] is [OPEN]. *)
Definition open_clients (w : world) : list ws_client :=
  List.filter (fun c => match readyState c with OPEN => true | _ => false end) (clients w).

(** The messages of one timer cycle: for each record in order, one
    [ticker] message to each of the clients [cs]. *)
Definition tick_messages (cs : list ws_client) (ms : list MarketData.t) : list (nat * ws_message) :=
  concat (map (fun m => map (fun c => (cid c, mkMsg "ticker" (MarketData.pair m) (PMarket m))) cs) ms).

(** [item.pair === message.pair] in the client's cache updater, for a
    message whose [pair] is the string [p]. *)
Definition item_matches (p : string) (it : val) : bool :=
  ClientCache.strict_eq (get_prop it "pair") (VStr p).

(** [{ ...item, ...message.data }]. *)
Definition merged_item (it d : val) : val :=
  VObj (ClientCache.object_spread (ClientCache.object_spread [] it) d).

(* ------------------------------------------------------------------ *)
(** ** Sample upstream answers *)

Definition sample_entry : val :=
  VObj [("a", VArr [VStr "101.5"; VStr "1"; VStr "1.000"]);
        ("b", VArr [VStr "100.5"; VStr "2"; VStr "2.000"]);
        ("c", VArr [VStr "101.0"; VStr "0.1"]);
        ("v", VArr [VStr "10"; VStr "20"]);
        ("l", VArr [VStr "90"; VStr "91"]);
        ("h", VArr [VStr "110"; VStr "111"]);
        ("o", VStr "100")].

Definition ok_envelope (r : val) : option http_response :=
  Some (mkResponse true 200 "OK" (Some (VObj [("error", VArr []); ("result", r)]))).

Definition sample_ticker_result : val :=
  VObj (map (fun k => (k, sample_entry))
            ["XXBTZUSD"; "XETHZUSD"; "ADAUSD"; "DOTUSD"; "SOLUSD"; "MATICUSD"; "LINKUSD"; "UNIUSD"]).

(** Ticker requests succeed; a depth request answers an order book with
    no asks and one bid at 100; every other request fails to connect. *)
Definition sample_net (u : string) : option http_response :=
  if String.prefix (Kraken.baseUrl ++ "/public/Ticker") u then ok_envelope sample_ticker_result
  else if String.prefix (Kraken.baseUrl ++ "/public/Depth") u then
    ok_envelope (VObj [("XXBTZUSD", VObj [("asks", VArr []);
                                          ("bids", VArr [VArr [VStr "100"; VStr "1"; VNum PrimFloat.one]])])])
  else None.

(** Every request is answered with Kraken's error envelope. *)
Definition error_net (u : string) : option http_response :=
  Some (mkResponse true 200 "OK"
          (Some (VObj [("error", VArr [VStr "EGeneral:Invalid arguments"]); ("result", VNull)]))).

Definition sample_world : world := mkWorld new_MemStorage 5 [] [mkClient 1 OPEN] [].

(** As [sample_net], except that the trades request for ["ETHUSD"] (count
    50) is answered with one trade. *)
Definition partial_net (u : string) : option http_response :=
  if String.eqb u (trades_url "ETHUSD" 50) then
    ok_envelope (VObj [("XETHZUSD", VArr [VArr [VStr "2000"; VStr "0.5"; VNum PrimFloat.one;
                                                VStr "b"; VStr "l"; VStr ""]]);
                       ("last", VStr "1")])
  else sample_net u.

(** A world whose store already holds an order book for ["XBTUSD"]
    (from [GET /api/orderbook/XBTUSD]), fifteen time units later. *)
Definition stale_world : world :=
  with_now (snd (Routes.get_orderbook sample_net "XBTUSD" None sample_world)) 20.

(** A trades answer with a sell and a trade whose side field is missing. *)
Definition one_trade_net (u : string) : option http_response :=
  ok_envelope (VObj [("XXBTZUSD", VArr [VArr [VStr "2000"; VStr "0.5"; VNum PrimFloat.one; VStr "s"];
                                        VArr [VStr "2001"; VStr "0.1"; VNum PrimFloat.one]]);
                     ("last", VStr "1")]).

(* ------------------------------------------------------------------ *)
(** ** Running the monad *)

Ltac unfold_monad :=
  unfold mbind, M_bind, mret, M_ret, throw, try_catch, settle, lift, console_error in *.

Lemma bind_run {A B} (m : M A) (k : A -> M B) w :
  (x ← m; k x) w = match m w with (Ok a, w') => k a w' | (Throw e, w') => (Throw e, w') end.
Proof. reflexivity. Qed.

Lemma makeRequest_world net ep w :
  snd (Kraken.makeRequest net ep w) = add_fetch w (Kraken.baseUrl ++ ep).
Proof.
  unfold Kraken.makeRequest, Kraken.rateLimitedFetch; unfold_monad; cbn.
  destruct (net _) as [r|]; cbn; [|reflexivity].
  destruct (ok r); cbn; [|reflexivity].
  destruct (body r) as [d|]; cbn; [|reflexivity].
  destruct (Kraken.krakenApiErrorSchema_parse d) as [[errs res]|]; cbn; [|reflexivity].
  destruct (length errs); reflexivity.
Qed.

Lemma makeRequest_outcome_indep net ep w w' :
  fst (Kraken.makeRequest net ep w) = fst (Kraken.makeRequest net ep w').
Proof.
  unfold Kraken.makeRequest, Kraken.rateLimitedFetch; unfold_monad; cbn.
  destruct (net _) as [r|]; cbn; [|reflexivity].
  destruct (ok r); cbn; [|reflexivity].
  destruct (body r) as [d|]; cbn; [|reflexivity].
  destruct (Kraken.krakenApiErrorSchema_parse d) as [[errs res]|]; cbn; [|reflexivity].
  destruct (length errs); reflexivity.
Qed.

(** Every upstream call of [KrakenApiService] is one request followed by
    pure work on its result. *)
Lemma api_call_run {A} net ep (g : val -> outcome A) w :
  (result ← Kraken.makeRequest net ep; lift (g result)) w =
  (obind (fst (Kraken.makeRequest net ep w)) g, add_fetch w (Kraken.baseUrl ++ ep)).
Proof.
  rewrite bind_run. pose proof (makeRequest_world net ep w) as Hw.
  destruct (Kraken.makeRequest net ep w) as [[a|e] w1]; cbn in *; subst; reflexivity.
Qed.

Lemma getOrderBook_run net pair count w :
  Kraken.getOrderBook net pair count w =
  (fst (Kraken.getOrderBook net pair count w), add_fetch w (depth_url pair count)).
Proof.
  unfold Kraken.getOrderBook. rewrite api_call_run. cbn.
  reflexivity.
Qed.

Lemma getRecentTrades_run net pair count w :
  Kraken.getRecentTrades net pair count w =
  (fst (Kraken.getRecentTrades net pair count w), add_fetch w (trades_url pair count)).
Proof. unfold Kraken.getRecentTrades. rewrite api_call_run. reflexivity. Qed.

Lemma getMultipleTickers_run net pairs w :
  Kraken.getMultipleTickers net pairs w =
  (fst (Kraken.getMultipleTickers net pairs w), add_fetch w (ticker_url (join_comma pairs))).
Proof. unfold Kraken.getMultipleTickers. rewrite api_call_run. reflexivity. Qed.

Lemma getTickerData_run net pair w :
  Kraken.getTickerData net pair w =
  (fst (Kraken.getTickerData net pair w), add_fetch w (ticker_url pair)).
Proof. unfold Kraken.getTickerData. rewrite api_call_run. reflexivity. Qed.

Lemma getOrderBook_outcome_indep net pair count w w' :
  fst (Kraken.getOrderBook net pair count w) = fst (Kraken.getOrderBook net pair count w').
Proof.
  unfold Kraken.getOrderBook. rewrite !api_call_run. cbn.
  now rewrite (makeRequest_outcome_indep net _ w w').
Qed.

Lemma getRecentTrades_outcome_indep net pair count w w' :
  fst (Kraken.getRecentTrades net pair count w) = fst (Kraken.getRecentTrades net pair count w').
Proof.
  unfold Kraken.getRecentTrades. rewrite !api_call_run. cbn.
  now rewrite (makeRequest_outcome_indep net _ w w').
Qed.

Lemma getMultipleTickers_outcome_indep net pairs w w' :
  fst (Kraken.getMultipleTickers net pairs w) = fst (Kraken.getMultipleTickers net pairs w').
Proof.
  unfold Kraken.getMultipleTickers. rewrite !api_call_run. cbn.
  now rewrite (makeRequest_outcome_indep net _ w w').
Qed.

(** Case analysis on the [let?] steps of a hypothesis [obind ... = Ok _]. *)
Ltac outcome_steps H :=
  repeat match type of H with
         | context [obind ?o _] =>
             let E := fresh "E" in
             destruct o eqn:E; cbn in H; try discriminate H
         end.

(* ------------------------------------------------------------------ *)
(** ** C9: the snapshot store is last-write-wins per (kind, pair) *)

(** C9: for each kind of record (ticker, order book, trades) and each
    pair, a [set] followed by a [get] on the same pair returns exactly the
    record written, and a second [set] replaces the first wholesale: the
    [get] then returns the second record only. *)
Theorem C9_store_last_write_wins (pair : string) (w : world) :
  (forall r : TickerData.t,
     fst ((Storage.setTickerData pair r;; Storage.getTickerData pair) w) = Ok (Some r)) /\
  (forall r r' : TickerData.t,
     fst ((Storage.setTickerData pair r;; Storage.setTickerData pair r';;
           Storage.getTickerData pair) w) = Ok (Some r')) /\
  (forall r : OrderBook.t,
     fst ((Storage.setOrderBook pair r;; Storage.getOrderBook pair) w) = Ok (Some r)) /\
  (forall r r' : OrderBook.t,
     fst ((Storage.setOrderBook pair r;; Storage.setOrderBook pair r';;
           Storage.getOrderBook pair) w) = Ok (Some r')) /\
  (forall r : RecentTrades.t,
     fst ((Storage.setRecentTrades pair r;; Storage.getRecentTrades pair) w) = Ok (Some r)) /\
  (forall r r' : RecentTrades.t,
     fst ((Storage.setRecentTrades pair r;; Storage.setRecentTrades pair r';;
           Storage.getRecentTrades pair) w) = Ok (Some r')).
Proof.
  unfold Storage.setTickerData, Storage.getTickerData, Storage.setOrderBook,
    Storage.getOrderBook, Storage.setRecentTrades, Storage.getRecentTrades, modify_storage.
  unfold_monad; cbn.
  repeat split; intros; by rewrite lookup_insert_eq.
Qed.

(* ------------------------------------------------------------------ *)
(** ** C8: the timer skips idle cycles *)

Definition idle_world : world := mkWorld new_MemStorage 5 [] [] [].

(** C8: when the 15-second timer fires while [wss.clients] is empty, the
    cycle returns at once: no upstream request is made and the world
    (store included) is left exactly as it was. *)
Theorem C8_idle_tick_no_upstream_call net (w : world) :
  clients w = [] -> Routes.broadcast_tick net w = (Ok tt, w).
Proof.
  intros Hc. unfold Routes.broadcast_tick, get_world. unfold_monad. cbn.
  now rewrite Hc.
Qed.

Lemma C8_idle_tick_witness :
  clients idle_world = [] /\ Routes.broadcast_tick sample_net idle_world = (Ok tt, idle_world).
Proof. split; [reflexivity | apply C8_idle_tick_no_upstream_call; reflexivity]. Defined.

(* ------------------------------------------------------------------ *)
(** ** C3: spread of an order book with an empty side *)

(** C3 (as stated, refuted): with no asks and one bid at 100, the depth
    answer gives [spread = 0 - 100] and [spreadPercent = -100], not 0. *)
Lemma C3_one_sided_book_spread_not_zero :
  match Kraken.getOrderBook sample_net "XBTUSD" 5 sample_world with
  | (Ok ob, _) =>
      OrderBook.asks ob = [] /\ OrderBook.bids ob <> [] /\
      OrderBook.spread ob <> fzero /\ OrderBook.spreadPercent ob <> fzero
  | (Throw _, _) => False
  end.
Proof.
  vm_compute. split; [reflexivity|]. split; [discriminate|].
  split; intros Heq; apply (f_equal (fun x => PrimFloat.eqb x fzero)) in Heq;
    vm_compute in Heq; discriminate Heq.
Qed.

(** C3 (amended): the best price of an empty side is 0 and
    [spread = bestAsk - bestBid]; an empty bids side gives
    [spreadPercent = 0]; an empty asks side gives [spread = 0 - bestBid];
    both sides empty give [spread = 0] and [spreadPercent = 0]. *)
Theorem C3_orderbook_empty_side_spread net pair count (w : world) ob w' :
  Kraken.getOrderBook net pair count w = (Ok ob, w') ->
  OrderBook.spread ob =
    (Kraken.best_price (OrderBook.asks ob) - Kraken.best_price (OrderBook.bids ob))%float /\
  (OrderBook.bids ob = [] ->
     OrderBook.spreadPercent ob = fzero /\
     OrderBook.spread ob = (Kraken.best_price (OrderBook.asks ob) - fzero)%float) /\
  (OrderBook.asks ob = [] ->
     OrderBook.spread ob = (fzero - Kraken.best_price (OrderBook.bids ob))%float) /\
  (OrderBook.asks ob = [] -> OrderBook.bids ob = [] ->
     OrderBook.spread ob = fzero /\ OrderBook.spreadPercent ob = fzero).
Proof.
  intros H. unfold Kraken.getOrderBook in H. rewrite api_call_run in H.
  injection H as Ho _.
  destruct (fst (Kraken.makeRequest _ _ _)) as [result|]; cbn in Ho; [|discriminate Ho].
  outcome_steps Ho. injection Ho as <-. cbn.
  split; [reflexivity|].
  split; [intros ->; split; reflexivity|].
  split; [intros ->; reflexivity|].
  intros -> ->. split; reflexivity.
Qed.

Lemma C3_orderbook_empty_side_spread_witness :
  match Kraken.getOrderBook sample_net "XBTUSD" 5 sample_world with
  | (Ok ob, w') =>
      Kraken.getOrderBook sample_net "XBTUSD" 5 sample_world = (Ok ob, w') /\
      OrderBook.spread ob = (fzero - Kraken.best_price (OrderBook.bids ob))%float
  | (Throw _, _) => False
  end.
Proof.
  destruct (Kraken.getOrderBook sample_net "XBTUSD" 5 sample_world) as [o w'] eqn:E.
  destruct o as [ob|e].
  - split; [reflexivity|].
    apply (C3_orderbook_empty_side_spread sample_net "XBTUSD" 5 sample_world ob w' E).
    vm_compute in E. injection E as <- _. reflexivity.
  - vm_compute in E. discriminate E.
Defined.

(* ------------------------------------------------------------------ *)
(** ** C1: the batch ticker fetch *)

Lemma mapM_outcome_Forall2 {A B} (f : A -> outcome B) xs ys :
  mapM_outcome f xs = Ok ys -> Forall2 (fun x y => f x = Ok y) xs ys.
Proof.
  revert ys. induction xs as [|x xs IH]; intros ys H; cbn in H.
  - injection H as <-. constructor.
  - destruct (f x) as [y|e] eqn:Ef; cbn in H; [|discriminate H].
    destruct (mapM_outcome f xs) as [ys'|e] eqn:Er; cbn in H; [|discriminate H].
    injection H as <-. constructor; auto.
Qed.

Lemma ticker_record_spread pair data t :
  Kraken.ticker_record pair data = Ok t ->
  TickerData.spread t = (TickerData.ask t - TickerData.bid t)%float /\
  TickerData.spreadPercent t =
    (((TickerData.ask t - TickerData.bid t) / TickerData.bid t) * hundred)%float.
Proof.
  unfold Kraken.ticker_record. intros H. outcome_steps H. injection H as <-.
  split; reflexivity.
Qed.

Lemma market_record_is_ticker_record pair data r :
  Kraken.market_record pair data = Ok r ->
  exists t, Kraken.ticker_record pair data = Ok t /\ r = ticker_without_spread t.
Proof.
  unfold Kraken.market_record, Kraken.ticker_record. intros H.
  outcome_steps H. injection H as <-. cbn.
  repeat (match goal with E : ?x = Ok _ |- _ => rewrite E end; cbn).
  eexists. split; reflexivity.
Qed.

Lemma multiple_ticker_entry_record result pair r :
  Kraken.multiple_ticker_entry result pair = Ok r ->
  exists data, Kraken.market_record pair data = Ok r.
Proof.
  unfold Kraken.multiple_ticker_entry. intros H.
  destruct (Kraken.resolve_pair_key result pair) as [k|e]; cbn in H; [|discriminate H].
  destruct (String.eqb k ""); [discriminate H|].
  destruct (prop result k) as [d|e]; cbn in H; [|discriminate H].
  destruct (truthy d); cbn in H; [eauto | discriminate H].
Qed.

Lemma market_record_pair pair data r :
  Kraken.market_record pair data = Ok r -> MarketData.pair r = pair.
Proof. unfold Kraken.market_record. intros H. outcome_steps H. now injection H as <-. Qed.

(** C1 (as stated, refuted): the records of a successful batch fetch,
    all with a positive bid, carry no [spread] and no [spreadPercent]
    field. *)
Lemma C1_batch_records_have_no_spread :
  match Kraken.getMultipleTickers sample_net Routes.POPULAR_PAIRS sample_world with
  | (Ok rs, _) =>
      length rs = length Routes.POPULAR_PAIRS /\
      Forall (fun r => PrimFloat.ltb fzero (MarketData.bid r) = true) rs /\
      ~ Forall (fun r => has_spread_fields (MarketData_to_val r)) rs
  | (Throw _, _) => False
  end.
Proof.
  vm_compute. split; [reflexivity|]. split; [repeat constructor|].
  intros HF. inversion HF as [|r rs Hr _]. destruct Hr as (a & b & _ & _ & Hs & _).
  vm_compute in Hs. discriminate Hs.
Qed.

(** C1 (amended): a successful [getMultipleTickers] returns exactly one
    record per requested pair, in request order, carrying that pair; each
    record is what [getTickerData] builds from an upstream entry
    (whose [spread = ask - bid] and [spreadPercent = spread / bid * 100])
    with those two fields left out: the batch record has neither. *)
Theorem C1_batch_one_record_per_pair net (pairs : list string) (w : world) rs w' :
  Kraken.getMultipleTickers net pairs w = (Ok rs, w') ->
  length rs = length pairs /\
  Forall2 (fun p r =>
    MarketData.pair r = p /\
    exists data t,
      Kraken.ticker_record p data = Ok t /\ r = ticker_without_spread t /\
      TickerData.spread t = (TickerData.ask t - TickerData.bid t)%float /\
      TickerData.spreadPercent t =
        (((TickerData.ask t - TickerData.bid t) / TickerData.bid t) * hundred)%float /\
      get_prop (MarketData_to_val r) "spread" = VUndef /\
      get_prop (MarketData_to_val r) "spreadPercent" = VUndef) pairs rs.
Proof.
  intros H. unfold Kraken.getMultipleTickers in H. rewrite api_call_run in H.
  injection H as Ho _.
  destruct (fst (Kraken.makeRequest _ _ _)) as [result|]; cbn in Ho; [|discriminate Ho].
  apply mapM_outcome_Forall2 in Ho.
  split; [symmetry; exact (Forall2_length _ _ _ Ho)|].
  eapply Forall2_impl; [exact Ho|]. intros p r Hr.
  destruct (multiple_ticker_entry_record _ _ _ Hr) as [data Hm].
  split; [exact (market_record_pair _ _ _ Hm)|].
  destruct (market_record_is_ticker_record _ _ _ Hm) as [t [Ht ->]].
  destruct (ticker_record_spread _ _ _ Ht) as [Hs Hsp].
  exists data, t. repeat split; auto.
Qed.

Lemma C1_batch_one_record_per_pair_witness :
  match Kraken.getMultipleTickers sample_net Routes.POPULAR_PAIRS sample_world with
  | (Ok rs, w') => length rs = length Routes.POPULAR_PAIRS
  | (Throw _, _) => False
  end.
Proof.
  destruct (Kraken.getMultipleTickers sample_net Routes.POPULAR_PAIRS sample_world) as [o w'] eqn:E.
  destruct o as [rs|e].
  - exact (proj1 (C1_batch_one_record_per_pair sample_net Routes.POPULAR_PAIRS sample_world rs w' E)).
  - vm_compute in E. discriminate E.
Defined.

(* ------------------------------------------------------------------ *)
(** ** C2: the initial push of a subscription *)

Definition client_open (w : world) (ws : nat) : bool :=
  existsb (fun c => Nat.eqb (cid c) ws &&
                    match readyState c with OPEN => true | _ => false end) (clients w).

(** The three messages of the initial push as the subscription handler
    builds them from the snapshot store alone. *)
Definition pushed_from_store (s : MemStorage) (ws : nat) (pair : string) : list (nat * ws_message) :=
  [(ws, mkMsg "ticker" pair (Routes.ticker_payload (tickerData s !! pair)));
   (ws, mkMsg "orderBook" pair (Routes.orderbook_payload (orderBooks s !! pair)));
   (ws, mkMsg "trades" pair (Routes.trades_payload (recentTrades s !! pair)))].

(** C2 (code bug): for every pair of a subscription, the initial push
    makes no upstream request at all and sends, to an open socket, the
    store's ticker, order book and trades for the pair, each one
    [undefined] when the store has no entry: [storage.getX(pair)] is a
    [Promise], always truthy, so the [|| krakenApi.getX(...)] fallback is
    never evaluated. *)
Theorem C2_initial_push_never_falls_back net (ws : nat) (pair : string) (w : world) :
  Routes.initial_push net ws pair w =
  (Ok tt, mkWorld (storage w) (now w) (fetched w) (clients w)
            (outbox w ++ if client_open w ws then pushed_from_store (storage w) ws pair else [])).
Proof.
  unfold Routes.initial_push, call_async, js_or_promise, promise_truthy, await_promise,
    Routes.ws_is_open, Routes.ws_send, Storage.getTickerData, Storage.getOrderBook,
    Storage.getRecentTrades, client_open, pushed_from_store.
  unfold_monad. cbn.
  destruct w as [s t f cs ob]; cbn.
  destruct (existsb _ cs); cbn; [|now rewrite app_nil_r].
  now rewrite <- !app_assoc.
Qed.

Definition fresh_world : world := mkWorld new_MemStorage 5 [] [mkClient 1 OPEN] [].

(** The failing input: a subscription to ["XBTUSD"] on an open socket
    against an empty store sends three messages with [data: undefined]
    and no upstream request, although the upstream would answer. *)
Lemma C2_failing_input :
  Routes.on_message sample_net 1 (Routes.Subscribe (Some ["XBTUSD"])) fresh_world =
  (Ok tt, mkWorld new_MemStorage 5 [] [mkClient 1 OPEN]
            [(1, mkMsg "ticker" "XBTUSD" PUndefined);
             (1, mkMsg "orderBook" "XBTUSD" PUndefined);
             (1, mkMsg "trades" "XBTUSD" PUndefined)]) /\
  is_throw (fst (Kraken.getTickerData sample_net "XBTUSD" fresh_world)) = false.
Proof. split; vm_compute; reflexivity. Qed.

(* ------------------------------------------------------------------ *)
(** ** The refresh cycles *)

Lemma broadcast_all_run (ms : list MarketData.t) (w : world) :
  exists out, Routes.broadcast_all ms w =
              (Ok tt, mkWorld (storage w) (now w) (fetched w) (clients w) out).
Proof.
  revert w. induction ms as [|m ms IH]; intros w; cbn.
  - exists (outbox w). now destruct w.
  - unfold_monad. unfold Routes.broadcast at 1. cbn.
    destruct (IH (mkWorld (storage w) (now w) (fetched w) (clients w)
                   (outbox w ++ map (fun c => (cid c, mkMsg "ticker" (MarketData.pair m) (PMarket m)))
                      (List.filter (fun c => match readyState c with OPEN => true | _ => false end)
                         (clients w))))) as [out Hout].
    exists out. exact Hout.
Qed.

(** [POST /api/refresh]'s per-pair step: both requests are made, and the
    store is written only when both succeed. *)
Definition after_pair_refresh (s : MemStorage) (pair : string)
    (ob : outcome OrderBook.t) (tr : outcome RecentTrades.t) : MemStorage :=
  match ob, tr with
  | Ok o, Ok r => mkStorage (tickerData s) (<[pair:=o]> (orderBooks s))
                            (<[pair:=r]> (recentTrades s)) (marketData s) (lastUpdated s)
  | _, _ => s
  end.

Lemma refresh_pair_run net pair (w : world) :
  Routes.refresh_pair net pair w =
  (Ok tt, mkWorld (after_pair_refresh (storage w) pair
                     (fst (Kraken.getOrderBook net pair 10 w))
                     (fst (Kraken.getRecentTrades net pair 50 w)))
                  (now w) (fetched w ++ [depth_url pair 10; trades_url pair 50])
                  (clients w) (outbox w)).
Proof.
  unfold Routes.refresh_pair. unfold try_catch. rewrite bind_run. unfold settle.
  rewrite getOrderBook_run. cbn. rewrite bind_run. cbn.
  rewrite getRecentTrades_run. cbn.
  rewrite (getRecentTrades_outcome_indep net pair 50 (add_fetch w (depth_url pair 10)) w).
  unfold promise_all2, after_pair_refresh, add_fetch.
  destruct (fst (Kraken.getOrderBook net pair 10 w)) as [o|e];
    destruct (fst (Kraken.getRecentTrades net pair 50 w)) as [r|e']; cbn;
    rewrite <- ?app_assoc; reflexivity.
Qed.

Definition pair_urls (pairs : list string) : list string :=
  concat (map (fun p => [depth_url p 10; trades_url p 50]) pairs).

Lemma refresh_pairs_run net pairs (w : world) :
  exists s',
    Routes.refresh_pairs net pairs w =
      (Ok tt, mkWorld s' (now w) (fetched w ++ pair_urls pairs) (clients w) (outbox w)) /\
    tickerData s' = tickerData (storage w) /\
    marketData s' = marketData (storage w) /\
    lastUpdated s' = lastUpdated (storage w) /\
    (forall p, is_throw (fst (Kraken.getOrderBook net p 10 w)) = true \/
               is_throw (fst (Kraken.getRecentTrades net p 50 w)) = true ->
       orderBooks s' !! p = orderBooks (storage w) !! p /\
       recentTrades s' !! p = recentTrades (storage w) !! p).
Proof.
  revert w. induction pairs as [|q qs IH]; intros w.
  - exists (storage w). cbn. rewrite app_nil_r. destruct w. repeat split; auto.
  - cbn [Routes.refresh_pairs]. rewrite bind_run, refresh_pair_run.
    set (w1 := mkWorld _ _ _ _ _).
    destruct (IH w1) as (s' & Hrun & Ht & Hm & Hl & Hp).
    exists s'. rewrite Hrun. cbn in *. rewrite <- app_assoc.
    split; [reflexivity|].
    assert (Hp' : forall p,
      is_throw (fst (Kraken.getOrderBook net p 10 w)) = true \/
      is_throw (fst (Kraken.getRecentTrades net p 50 w)) = true ->
      orderBooks s' !! p = orderBooks (after_pair_refresh (storage w) q
                                         (fst (Kraken.getOrderBook net q 10 w))
                                         (fst (Kraken.getRecentTrades net q 50 w))) !! p /\
      recentTrades s' !! p = recentTrades (after_pair_refresh (storage w) q
                                         (fst (Kraken.getOrderBook net q 10 w))
                                         (fst (Kraken.getRecentTrades net q 50 w))) !! p).
    { intros p Hf. apply Hp.
      rewrite (getOrderBook_outcome_indep net p 10 w1 w),
              (getRecentTrades_outcome_indep net p 50 w1 w). exact Hf. }
    clear Hp Hrun. unfold after_pair_refresh in *.
    destruct (fst (Kraken.getOrderBook net q 10 w)) as [o|e] eqn:Eo;
      destruct (fst (Kraken.getRecentTrades net q 50 w)) as [r|e'] eqn:Er;
      cbn in *; (split; [assumption|]); (split; [assumption|]); (split; [assumption|]);
      intros p Hf; destruct (Hp' p Hf) as [H1 H2]; rewrite H1, H2; try (split; reflexivity).
    destruct (String.eq_dec p q) as [->|Hne].
    + rewrite Eo, Er in Hf. cbn in Hf. destruct Hf; discriminate.
    + rewrite !lookup_insert_ne by congruence. split; reflexivity.
Qed.

Lemma refresh_pairs_frame net pairs (w : world) p :
  ~ In p pairs ->
  orderBooks (storage (snd (Routes.refresh_pairs net pairs w))) !! p = orderBooks (storage w) !! p /\
  recentTrades (storage (snd (Routes.refresh_pairs net pairs w))) !! p = recentTrades (storage w) !! p.
Proof.
  revert w. induction pairs as [|q qs IH]; intros w Hn; [split; reflexivity|].
  cbn [Routes.refresh_pairs]. rewrite bind_run, refresh_pair_run.
  set (w1 := mkWorld _ _ _ _ _). cbn -[Routes.refresh_pairs].
  destruct (IH w1) as [H1 H2]; [intros Hin; apply Hn; right; exact Hin|].
  rewrite H1, H2. subst w1. cbn -[Kraken.getOrderBook Kraken.getRecentTrades].
  assert (q <> p) by (intros ->; apply Hn; left; reflexivity).
  unfold after_pair_refresh.
  destruct (fst (Kraken.getOrderBook net q 10 w)), (fst (Kraken.getRecentTrades net q 50 w));
    cbn; try (split; reflexivity).
  rewrite !lookup_insert_ne by congruence. split; reflexivity.
Qed.

Lemma refresh_pairs_stores net pairs (w : world) p ob tr :
  In p pairs ->
  fst (Kraken.getOrderBook net p 10 w) = Ok ob ->
  fst (Kraken.getRecentTrades net p 50 w) = Ok tr ->
  orderBooks (storage (snd (Routes.refresh_pairs net pairs w))) !! p = Some ob /\
  recentTrades (storage (snd (Routes.refresh_pairs net pairs w))) !! p = Some tr.
Proof.
  revert w. induction pairs as [|q qs IH]; intros w Hin Ho Htr; [destruct Hin|].
  cbn [Routes.refresh_pairs]. rewrite bind_run, refresh_pair_run.
  set (w1 := mkWorld _ _ _ _ _). cbn -[Routes.refresh_pairs].
  destruct (in_dec String.eq_dec p qs) as [Hq|Hq].
  - apply IH; [exact Hq| |].
    + rewrite (getOrderBook_outcome_indep net p 10 w1 w). exact Ho.
    + rewrite (getRecentTrades_outcome_indep net p 50 w1 w). exact Htr.
  - destruct Hin as [->|Hin]; [|contradiction].
    destruct (refresh_pairs_frame net qs w1 p Hq) as [H1 H2].
    rewrite H1, H2. subst w1. cbn -[Kraken.getOrderBook Kraken.getRecentTrades].
    unfold after_pair_refresh. rewrite Ho, Htr. cbn.
    rewrite !lookup_insert_eq. split; reflexivity.
Qed.

Definition bulk_url : string := ticker_url (join_comma Routes.POPULAR_PAIRS).

Lemma post_refresh_bulk_fail net (w : world) e :
  fst (Kraken.getMultipleTickers net Routes.POPULAR_PAIRS w) = Throw e ->
  Routes.post_refresh net w =
  (Ok (Routes.Status500 "Failed to refresh data" (Routes.message e)), add_fetch w bulk_url).
Proof.
  intros H. unfold Routes.post_refresh, try_catch. rewrite bind_run.
  rewrite getMultipleTickers_run, H. reflexivity.
Qed.

Lemma post_refresh_bulk_ok net (w : world) ms :
  fst (Kraken.getMultipleTickers net Routes.POPULAR_PAIRS w) = Ok ms ->
  exists s',
    Routes.post_refresh net w =
      (Ok (Routes.Status200 (Routes.BRefresh true "Data refreshed successfully")),
       mkWorld s' (now w) (fetched w ++ [bulk_url] ++ pair_urls Routes.POPULAR_PAIRS)
               (clients w) (outbox w)) /\
    marketData s' = ms /\ lastUpdated s' = Some (now w) /\
    tickerData s' = tickerData (storage w) /\
    (forall p, is_throw (fst (Kraken.getOrderBook net p 10 w)) = true \/
               is_throw (fst (Kraken.getRecentTrades net p 50 w)) = true ->
       orderBooks s' !! p = orderBooks (storage w) !! p /\
       recentTrades s' !! p = recentTrades (storage w) !! p) /\
    (forall p ob tr, In p Routes.POPULAR_PAIRS ->
       fst (Kraken.getOrderBook net p 10 w) = Ok ob ->
       fst (Kraken.getRecentTrades net p 50 w) = Ok tr ->
       orderBooks s' !! p = Some ob /\ recentTrades s' !! p = Some tr).
Proof.
  intros H.
  unfold Routes.post_refresh, Storage.setMarketData, Storage.setLastUpdated,
    modify_storage, new_Date.
  unfold_monad. rewrite getMultipleTickers_run, H. cbn -[Routes.refresh_pairs bulk_url].
  match goal with
  | |- context [Routes.refresh_pairs net Routes.POPULAR_PAIRS ?w1] =>
      destruct (refresh_pairs_run net Routes.POPULAR_PAIRS w1) as (s' & Hrun & Ht & Hm & Hl & Hp);
      pose proof (refresh_pairs_stores net Routes.POPULAR_PAIRS w1) as Hs;
      rewrite Hrun in Hs |- *; cbn [snd storage] in Hs
  end.
  cbn in Ht, Hm, Hl |- *.
  eexists. split; [rewrite <- app_assoc; reflexivity|].
  rewrite Hm, Ht. split; [reflexivity|]. split; [reflexivity|]. split; [reflexivity|].
  split.
  - intros p Hf. apply Hp.
    rewrite (getOrderBook_outcome_indep net p 10 _ w),
            (getRecentTrades_outcome_indep net p 50 _ w). exact Hf.
  - intros p ob tr Hin Ho Htr. apply Hs; [exact Hin| |].
    + rewrite (getOrderBook_outcome_indep net p 10 _ w). exact Ho.
    + rewrite (getRecentTrades_outcome_indep net p 50 _ w). exact Htr.
Qed.

Lemma error_net_envelope (u : string) : error_envelope (error_net u).
Proof.
  exists (mkResponse true 200 "OK"
            (Some (VObj [("error", VArr [VStr "EGeneral:Invalid arguments"]); ("result", VNull)]))),
    [("error", VArr [VStr "EGeneral:Invalid arguments"]); ("result", VNull)],
    ["EGeneral:Invalid arguments"].
  repeat split; discriminate.
Qed.

Lemma strings_of_map_VStr (errs : list string) : Kraken.strings_of (map VStr errs) = Some errs.
Proof. induction errs as [|x xs IH]; cbn; [reflexivity|]. now rewrite IH. Qed.

(** [makeRequest] throws on an error envelope; the only change to the
    world is the request itself. *)
Lemma makeRequest_error_envelope net ep (w : world) :
  error_envelope (net (Kraken.baseUrl ++ ep)) ->
  exists e, Kraken.makeRequest net ep w = (Throw e, add_fetch w (Kraken.baseUrl ++ ep)).
Proof.
  intros (resp & fs & errs & Hr & Hb & He & Hne).
  rewrite (surjective_pairing (Kraken.makeRequest net ep w)), makeRequest_world.
  unfold Kraken.makeRequest, Kraken.rateLimitedFetch; unfold_monad.
  rewrite Hr. cbn -[Kraken.baseUrl].
  destruct (ok resp); cbn -[Kraken.baseUrl]; [|eexists; reflexivity].
  rewrite Hb. cbn -[Kraken.baseUrl]. rewrite He, strings_of_map_VStr.
  destruct errs as [|x xs]; [contradiction|]. cbn -[Kraken.baseUrl]. eexists; reflexivity.
Qed.

(* ------------------------------------------------------------------ *)
(** ** C5: an error envelope leaves the store unchanged *)

(** C5: when the upstream answers a request with an envelope whose
    [error] list is non-empty, [makeRequest] throws, and every operation
    built on that request ends with the world changed only by the request
    itself ([add_fetch]): the store is untouched.  The four HTTP handlers
    and [POST /api/refresh] answer 500; the timer cycle leaves the store as
    it was. *)
Theorem C5_error_envelope_leaves_store net (w : world) :
  (forall ep, error_envelope (net (Kraken.baseUrl ++ ep)) ->
     exists e, Kraken.makeRequest net ep w = (Throw e, add_fetch w (Kraken.baseUrl ++ ep))) /\
  (forall pair, error_envelope (net (ticker_url pair)) ->
     exists msg, Routes.get_ticker net pair w =
       (Ok (Routes.Status500 "Failed to fetch ticker data" msg), add_fetch w (ticker_url pair))) /\
  (forall pair q, error_envelope (net (depth_url pair (Routes.count_or q 5))) ->
     exists msg, Routes.get_orderbook net pair q w =
       (Ok (Routes.Status500 "Failed to fetch order book" msg),
        add_fetch w (depth_url pair (Routes.count_or q 5)))) /\
  (forall pair q, error_envelope (net (trades_url pair (Routes.count_or q 100))) ->
     exists msg, Routes.get_trades net pair q w =
       (Ok (Routes.Status500 "Failed to fetch recent trades" msg),
        add_fetch w (trades_url pair (Routes.count_or q 100)))) /\
  (error_envelope (net bulk_url) ->
     exists msg, Routes.get_market_data net w =
       (Ok (Routes.Status500 "Failed to fetch market data" msg), add_fetch w bulk_url)) /\
  (error_envelope (net bulk_url) ->
     exists msg, Routes.post_refresh net w =
       (Ok (Routes.Status500 "Failed to refresh data" msg), add_fetch w bulk_url)) /\
  (error_envelope (net bulk_url) ->
     storage (snd (Routes.broadcast_tick net w)) = storage w).
Proof.
  split; [intros ep; apply makeRequest_error_envelope|].
  split.
  { intros pair Hp.
    destruct (makeRequest_error_envelope net ("/public/Ticker?pair=" ++ pair) w Hp) as [e He].
    unfold Routes.get_ticker, Kraken.getTickerData. unfold_monad. rewrite He.
    eexists; reflexivity. }
  split.
  { intros pair q Hp.
    destruct (makeRequest_error_envelope net
                ("/public/Depth?pair=" ++ pair ++ "&count=" ++ string_of_nat (Routes.count_or q 5)) w Hp)
      as [e He].
    unfold Routes.get_orderbook, Kraken.getOrderBook. unfold_monad. rewrite He.
    eexists; reflexivity. }
  split.
  { intros pair q Hp.
    destruct (makeRequest_error_envelope net
                ("/public/Trades?pair=" ++ pair ++ "&count=" ++ string_of_nat (Routes.count_or q 100)) w Hp)
      as [e He].
    unfold Routes.get_trades, Kraken.getRecentTrades. unfold_monad. rewrite He.
    eexists; reflexivity. }
  assert (Hb : error_envelope (net bulk_url) ->
               exists e, Kraken.getMultipleTickers net Routes.POPULAR_PAIRS w = (Throw e, add_fetch w bulk_url)).
  { intros Hp.
    destruct (makeRequest_error_envelope net
                ("/public/Ticker?pair=" ++ join_comma Routes.POPULAR_PAIRS) w Hp) as [e He].
    exists e. unfold Kraken.getMultipleTickers. unfold_monad. rewrite He. reflexivity. }
  split.
  { intros Hp. destruct (Hb Hp) as [e He].
    unfold Routes.get_market_data. unfold_monad. rewrite He. eexists; reflexivity. }
  split.
  { intros Hp. destruct (Hb Hp) as [e He].
    unfold Routes.post_refresh. unfold_monad. rewrite He. eexists; reflexivity. }
  intros Hp. destruct (Hb Hp) as [e He].
  unfold Routes.broadcast_tick, get_world. unfold_monad. cbn -[Kraken.getMultipleTickers].
  destruct (Nat.eqb _ 0); [reflexivity|]. rewrite He. reflexivity.
Qed.

Lemma C5_error_envelope_leaves_store_witness :
  (exists e, Kraken.makeRequest error_net "/public/Ticker?pair=XBTUSD" sample_world =
             (Throw e, add_fetch sample_world (ticker_url "XBTUSD"))) /\
  (exists msg, Routes.get_ticker error_net "XBTUSD" sample_world =
       (Ok (Routes.Status500 "Failed to fetch ticker data" msg), add_fetch sample_world (ticker_url "XBTUSD"))) /\
  (exists msg, Routes.get_orderbook error_net "XBTUSD" None sample_world =
       (Ok (Routes.Status500 "Failed to fetch order book" msg), add_fetch sample_world (depth_url "XBTUSD" 5))) /\
  (exists msg, Routes.get_trades error_net "XBTUSD" None sample_world =
       (Ok (Routes.Status500 "Failed to fetch recent trades" msg), add_fetch sample_world (trades_url "XBTUSD" 100))) /\
  (exists msg, Routes.get_market_data error_net sample_world =
       (Ok (Routes.Status500 "Failed to fetch market data" msg), add_fetch sample_world bulk_url)) /\
  (exists msg, Routes.post_refresh error_net sample_world =
       (Ok (Routes.Status500 "Failed to refresh data" msg), add_fetch sample_world bulk_url)) /\
  storage (snd (Routes.broadcast_tick error_net sample_world)) = storage sample_world.
Proof.
  destruct (C5_error_envelope_leaves_store error_net sample_world)
    as (H1 & H2 & H3 & H4 & H5 & H6 & H7).
  split; [apply (H1 "/public/Ticker?pair=XBTUSD"); apply error_net_envelope|].
  split; [apply (H2 "XBTUSD"); apply error_net_envelope|].
  split; [apply (H3 "XBTUSD" None); apply error_net_envelope|].
  split; [apply (H4 "XBTUSD" None); apply error_net_envelope|].
  split; [apply H5; apply error_net_envelope|].
  split; [apply H6; apply error_net_envelope|].
  apply H7; apply error_net_envelope.
Defined.

(* ------------------------------------------------------------------ *)
(** ** C6: what aborts [POST /api/refresh] *)

(** C6: a failing bulk ticker fetch aborts [POST /api/refresh] at once: no
    per-pair request is made, the store is untouched and the caller gets a
    500.  When the bulk fetch succeeds, the order book and trades requests
    of every configured pair are made whatever earlier pairs did, the
    caller gets a success, and every pair whose two requests succeed has
    its new order book and trades stored. *)
Theorem C6_refresh_failure_scope net (w : world) :
  (forall e, fst (Kraken.getMultipleTickers net Routes.POPULAR_PAIRS w) = Throw e ->
     Routes.post_refresh net w =
     (Ok (Routes.Status500 "Failed to refresh data" (Routes.message e)), add_fetch w bulk_url)) /\
  (forall ms, fst (Kraken.getMultipleTickers net Routes.POPULAR_PAIRS w) = Ok ms ->
     exists s',
       Routes.post_refresh net w =
         (Ok (Routes.Status200 (Routes.BRefresh true "Data refreshed successfully")),
          mkWorld s' (now w) (fetched w ++ [bulk_url] ++ pair_urls Routes.POPULAR_PAIRS)
                  (clients w) (outbox w)) /\
       (forall p ob tr, In p Routes.POPULAR_PAIRS ->
          fst (Kraken.getOrderBook net p 10 w) = Ok ob ->
          fst (Kraken.getRecentTrades net p 50 w) = Ok tr ->
          orderBooks s' !! p = Some ob /\ recentTrades s' !! p = Some tr)).
Proof.
  split; [exact (post_refresh_bulk_fail net w)|].
  intros ms H.
  destruct (post_refresh_bulk_ok net w ms H) as (s' & Hr & _ & _ & _ & _ & Hs).
  exists s'. split; [exact Hr | exact Hs].
Qed.

Lemma C6_refresh_failure_scope_witness :
  Routes.post_refresh error_net sample_world =
    (Ok (Routes.Status500 "Failed to refresh data" "Kraken API Error: EGeneral:Invalid arguments"),
     add_fetch sample_world bulk_url) /\
  is_throw (fst (Kraken.getRecentTrades partial_net "XBTUSD" 50 sample_world)) = true /\
  fetched (snd (Routes.post_refresh partial_net sample_world)) = bulk_url :: pair_urls Routes.POPULAR_PAIRS /\
  orderBooks (storage (snd (Routes.post_refresh partial_net sample_world))) !! "ETHUSD" <> None.
Proof.
  split.
  { apply (proj1 (C6_refresh_failure_scope error_net sample_world)
                 (KrakenApiError ["EGeneral:Invalid arguments"])).
    vm_compute. reflexivity. }
  split; [vm_compute; reflexivity|].
  destruct (fst (Kraken.getMultipleTickers partial_net Routes.POPULAR_PAIRS sample_world))
    as [ms|e] eqn:E; [|vm_compute in E; discriminate E].
  destruct (proj2 (C6_refresh_failure_scope partial_net sample_world) ms E) as (s' & Hr & Hs).
  rewrite Hr. split; [reflexivity|]. cbn [snd storage].
  destruct (fst (Kraken.getOrderBook partial_net "ETHUSD" 10 sample_world))
    as [ob|e] eqn:Eo; [|vm_compute in Eo; discriminate Eo].
  destruct (fst (Kraken.getRecentTrades partial_net "ETHUSD" 50 sample_world))
    as [tr|e] eqn:Et; [|vm_compute in Et; discriminate Et].
  rewrite (proj1 (Hs "ETHUSD" ob tr ltac:(cbn; tauto) Eo Et)). discriminate.
Defined.

(* ------------------------------------------------------------------ *)
(** ** C10: a successful refresh with failing pairs *)

(** C10: when the bulk ticker fetch of [POST /api/refresh] succeeds, the
    caller gets a success and [lastUpdated] is set to the current time,
    whatever the per-pair requests do; every pair whose order book or
    trades request fails keeps the order book and trades it had in the
    store before (possibly stale, never cleared). *)
Theorem C10_refresh_success_keeps_stale net (w : world) ms :
  fst (Kraken.getMultipleTickers net Routes.POPULAR_PAIRS w) = Ok ms ->
  exists s',
    Routes.post_refresh net w =
      (Ok (Routes.Status200 (Routes.BRefresh true "Data refreshed successfully")),
       mkWorld s' (now w) (fetched w ++ [bulk_url] ++ pair_urls Routes.POPULAR_PAIRS)
               (clients w) (outbox w)) /\
    lastUpdated s' = Some (now w) /\
    (forall p, is_throw (fst (Kraken.getOrderBook net p 10 w)) = true \/
               is_throw (fst (Kraken.getRecentTrades net p 50 w)) = true ->
       orderBooks s' !! p = orderBooks (storage w) !! p /\
       recentTrades s' !! p = recentTrades (storage w) !! p).
Proof.
  intros H.
  destruct (post_refresh_bulk_ok net w ms H) as (s' & Hr & _ & Hl & _ & Hp & _).
  exists s'. split; [exact Hr|]. split; [exact Hl | exact Hp].
Qed.

Lemma C10_refresh_success_keeps_stale_witness :
  forallb (fun p => is_throw (fst (Kraken.getRecentTrades sample_net p 50 stale_world)))
          Routes.POPULAR_PAIRS = true /\
  orderBooks (storage stale_world) !! "XBTUSD" <> None /\
  match fst (Kraken.getMultipleTickers sample_net Routes.POPULAR_PAIRS stale_world) with
  | Ok ms =>
      exists s',
        Routes.post_refresh sample_net stale_world =
          (Ok (Routes.Status200 (Routes.BRefresh true "Data refreshed successfully")),
           mkWorld s' 20 (fetched stale_world ++ bulk_url :: pair_urls Routes.POPULAR_PAIRS)
                   (clients stale_world) (outbox stale_world)) /\
        lastUpdated s' = Some 20%Z /\
        orderBooks s' !! "XBTUSD" = orderBooks (storage stale_world) !! "XBTUSD"
  | Throw _ => False
  end.
Proof.
  split; [vm_compute; reflexivity|].
  split; [vm_compute; discriminate|].
  destruct (fst (Kraken.getMultipleTickers sample_net Routes.POPULAR_PAIRS stale_world))
    as [ms|e] eqn:E; [|vm_compute in E; discriminate E].
  destruct (C10_refresh_success_keeps_stale sample_net stale_world ms E) as (s' & Hr & Hl & Hp).
  exists s'. split; [exact Hr|]. split; [exact Hl|].
  apply Hp. right. vm_compute. reflexivity.
Defined.

(* ------------------------------------------------------------------ *)
(** ** C4: [lastUpdated] and the timer cycle *)

(** C4 (code bug): the 15-second timer cycle never writes [lastUpdated],
    although on a successful bulk ticker fetch it replaces [marketData]
    (lines 263-267 call [setMarketData] but not [setLastUpdated], unlike
    [GET /api/market-data] and [POST /api/refresh]). *)
Theorem C4_tick_keeps_lastUpdated net (w : world) :
  lastUpdated (storage (snd (Routes.broadcast_tick net w))) = lastUpdated (storage w) /\
  (forall ms, clients w <> [] ->
     fst (Kraken.getMultipleTickers net Routes.POPULAR_PAIRS w) = Ok ms ->
     marketData (storage (snd (Routes.broadcast_tick net w))) = ms).
Proof.
  unfold Routes.broadcast_tick, get_world. unfold_monad.
  cbn -[Kraken.getMultipleTickers Routes.broadcast_all].
  destruct (clients w) as [|c cs] eqn:Ec; cbn -[Kraken.getMultipleTickers Routes.broadcast_all].
  - split; [reflexivity|]. intros ms Hc. contradiction.
  - rewrite getMultipleTickers_run.
    destruct (fst (Kraken.getMultipleTickers net Routes.POPULAR_PAIRS w)) as [ms|e];
      cbn -[Routes.broadcast_all].
    + unfold Storage.setMarketData, modify_storage.
      match goal with
      | |- context [Routes.broadcast_all ?l ?w1] =>
          destruct (broadcast_all_run l w1) as [out Hout]; rewrite Hout
      end.
      cbn. split; [reflexivity|]. intros ms' _ H. injection H as <-. reflexivity.
    + split; [reflexivity|]. intros ms' _ H. discriminate H.
Qed.

(** The failing input: [GET /api/market-data] at time 5 sets
    [lastUpdated] to 5; a timer cycle at time 20 with one open client then
    fetches and stores new market data, yet [lastUpdated] stays 5. *)
Lemma C4_failing_input :
  lastUpdated (storage (snd (Routes.get_market_data sample_net sample_world))) = Some 5%Z /\
  fst (Routes.broadcast_tick sample_net
         (with_now (snd (Routes.get_market_data sample_net sample_world)) 20)) = Ok tt /\
  length (fetched (snd (Routes.broadcast_tick sample_net
         (with_now (snd (Routes.get_market_data sample_net sample_world)) 20)))) = 2 /\
  lastUpdated (storage (snd (Routes.broadcast_tick sample_net
         (with_now (snd (Routes.get_market_data sample_net sample_world)) 20)))) = Some 5%Z.
Proof. vm_compute. repeat split. Qed.

(* ------------------------------------------------------------------ *)
(** ** C7: how a batch entry's key is resolved *)

(** C7 (as stated, refuted): ["XBTUSD"] is itself a key of the answer,
    but the pair resolves to its alias ["XXBTZUSD"], which the alias
    table lists first. *)
Lemma C7_own_key_not_resolved_directly :
  Kraken.resolve_pair_key (VObj [("XBTUSD", sample_entry); ("XXBTZUSD", sample_entry)]) "XBTUSD"
  = Ok "XXBTZUSD".
Proof. vm_compute. reflexivity. Qed.

Lemma first_present_app (result : val) (pre : list string) (k : string) (post : list string) :
  nullish result = false ->
  Forall (fun k' => truthy (get_prop result k') = false) pre ->
  truthy (get_prop result k) = true ->
  Kraken.first_present result (app pre (k :: post)) = Ok k.
Proof.
  intros Hn Hpre Hk. induction Hpre as [|k' pre' Hk' _ IH]; cbn; unfold prop; rewrite Hn; cbn.
  - now rewrite Hk.
  - now rewrite Hk'.
Qed.

(** C7 (amended): the candidate keys of a pair are [krakenPairMap[pair]]
    when the table has the pair and [[pair]] otherwise; the pair resolves
    to the first candidate whose value in the answer is truthy, so when
    there is one (and it is not [""]), the fuzzy fallback is not used. *)
Theorem C7_resolve_first_truthy_candidate (result : val) (pair : string)
    (pre : list string) (k : string) (post : list string) :
  Kraken.possible_keys pair = app pre (k :: post) ->
  k <> "" ->
  nullish result = false ->
  Forall (fun k' => truthy (get_prop result k') = false) pre ->
  truthy (get_prop result k) = true ->
  Kraken.resolve_pair_key result pair = Ok k.
Proof.
  intros Hpk Hne Hn Hpre Hk. unfold Kraken.resolve_pair_key. rewrite Hpk.
  rewrite (first_present_app result pre k post Hn Hpre Hk). cbn.
  destruct (String.eqb_spec k ""); [contradiction | reflexivity].
Qed.

(** ["ADAUSD"] against an answer keyed ["ADAUSD"], ["XBTUSD"] against one
    keyed ["XXBTZUSD"], and ["XBTUSD"] against one keyed ["XBTUSD"]. *)
Lemma C7_resolve_first_truthy_candidate_witness :
  Kraken.resolve_pair_key (VObj [("ADAUSD", sample_entry)]) "ADAUSD" = Ok "ADAUSD" /\
  Kraken.resolve_pair_key (VObj [("XXBTZUSD", sample_entry)]) "XBTUSD" = Ok "XXBTZUSD" /\
  Kraken.resolve_pair_key (VObj [("XBTUSD", sample_entry)]) "XBTUSD" = Ok "XBTUSD".
Proof.
  split; [|split].
  - apply (C7_resolve_first_truthy_candidate _ "ADAUSD" [] "ADAUSD" []);
      [reflexivity | discriminate | reflexivity | constructor | reflexivity].
  - apply (C7_resolve_first_truthy_candidate _ "XBTUSD" [] "XXBTZUSD" ["XBTUSD"]);
      [reflexivity | discriminate | reflexivity | constructor | reflexivity].
  - apply (C7_resolve_first_truthy_candidate _ "XBTUSD" ["XXBTZUSD"] "XBTUSD" []);
      [reflexivity | discriminate | reflexivity | | reflexivity].
    constructor; [reflexivity | constructor].
Defined.

(* ------------------------------------------------------------------ *)
(** ** Further properties of the store and the upstream client *)

(** Each setter of [MemStorage] changes only its own entry: the (kind,
    pair) it writes, the market-data list, or the last-updated date. *)
Theorem store_setters_frame (w : world) (p : string) (t : TickerData.t)
    (o : OrderBook.t) (r : RecentTrades.t) (ms : list MarketData.t) (d : Z) :
  (let s := storage (snd (Storage.setTickerData p t w)) in
   (forall q, q <> p -> tickerData s !! q = tickerData (storage w) !! q) /\
   orderBooks s = orderBooks (storage w) /\ recentTrades s = recentTrades (storage w) /\
   marketData s = marketData (storage w) /\ lastUpdated s = lastUpdated (storage w)) /\
  (let s := storage (snd (Storage.setOrderBook p o w)) in
   (forall q, q <> p -> orderBooks s !! q = orderBooks (storage w) !! q) /\
   tickerData s = tickerData (storage w) /\ recentTrades s = recentTrades (storage w) /\
   marketData s = marketData (storage w) /\ lastUpdated s = lastUpdated (storage w)) /\
  (let s := storage (snd (Storage.setRecentTrades p r w)) in
   (forall q, q <> p -> recentTrades s !! q = recentTrades (storage w) !! q) /\
   tickerData s = tickerData (storage w) /\ orderBooks s = orderBooks (storage w) /\
   marketData s = marketData (storage w) /\ lastUpdated s = lastUpdated (storage w)) /\
  (let s := storage (snd (Storage.setMarketData ms w)) in
   marketData s = ms /\ tickerData s = tickerData (storage w) /\
   orderBooks s = orderBooks (storage w) /\ recentTrades s = recentTrades (storage w) /\
   lastUpdated s = lastUpdated (storage w)) /\
  (let s := storage (snd (Storage.setLastUpdated d w)) in
   lastUpdated s = Some d /\ tickerData s = tickerData (storage w) /\
   orderBooks s = orderBooks (storage w) /\ recentTrades s = recentTrades (storage w) /\
   marketData s = marketData (storage w)).
Proof.
  unfold Storage.setTickerData, Storage.setOrderBook, Storage.setRecentTrades,
    Storage.setMarketData, Storage.setLastUpdated, modify_storage; cbn.
  repeat split; try reflexivity; intros q Hq; now rewrite lookup_insert_ne by congruence.
Qed.

(** [getAllTickerData] lists exactly the stored ticker records, one per
    stored pair, and changes nothing. *)
Theorem getAllTickerData_contents (w : world) :
  exists l, Storage.getAllTickerData w = (Ok l, w) /\
    length l = size (tickerData (storage w)) /\
    (forall t, In t l <-> exists p, tickerData (storage w) !! p = Some t).
Proof.
  exists (map snd (map_to_list (tickerData (storage w)))).
  split; [reflexivity|]. split.
  - now rewrite length_map, length_map_to_list.
  - intros t. rewrite in_map_iff. split.
    + intros [[p t'] [<- Hin]]. exists p. cbn.
      apply elem_of_map_to_list. apply list_elem_of_In. exact Hin.
    + intros [p Hp]. exists (p, t). split; [reflexivity|].
      apply list_elem_of_In. apply elem_of_map_to_list. exact Hp.
Qed.

(** [makeRequest] resolves exactly when the upstream answers with an
    [ok] response whose JSON body passes the error-envelope schema with an
    empty [error] list; it resolves to that body's [result] field. *)
Theorem makeRequest_ok_iff net ep (w : world) (r : val) :
  fst (Kraken.makeRequest net ep w) = Ok r <->
  exists resp d, net (Kraken.baseUrl ++ ep) = Some resp /\ ok resp = true /\
    body resp = Some d /\ Kraken.krakenApiErrorSchema_parse d = Some ([], r).
Proof.
  unfold Kraken.makeRequest, Kraken.rateLimitedFetch; unfold_monad. cbn -[Kraken.baseUrl].
  split.
  - destruct (net _) as [resp|] eqn:En; cbn -[Kraken.baseUrl]; [|discriminate].
    destruct (ok resp) eqn:Eo; cbn -[Kraken.baseUrl]; [|discriminate].
    destruct (body resp) as [d|] eqn:Eb; cbn -[Kraken.baseUrl]; [|discriminate].
    destruct (Kraken.krakenApiErrorSchema_parse d) as [[errs res]|] eqn:Ep;
      cbn -[Kraken.baseUrl]; [|discriminate].
    destruct errs as [|e es]; cbn -[Kraken.baseUrl]; [|discriminate].
    intros H. injection H as <-. exists resp, d. auto.
  - intros (resp & d & En & Eo & Eb & Ep). rewrite En. cbn -[Kraken.baseUrl].
    rewrite Eo. cbn -[Kraken.baseUrl]. rewrite Eb. cbn -[Kraken.baseUrl]. rewrite Ep.
    reflexivity.
Qed.

Lemma first_entry_head (k : string) (d : val) fs :
  Kraken.first_entry (VObj ((k, d) :: fs)) = Ok d.
Proof. unfold Kraken.first_entry, prop; cbn. now rewrite String.eqb_refl. Qed.

Lemma makeRequest_ok_envelope (v : val) ep (w : world) :
  fst (Kraken.makeRequest (fun _ => ok_envelope v) ep w) = Ok v.
Proof. apply makeRequest_ok_iff. eexists _, _. repeat split. Qed.

(** The three per-pair fetches read only the FIRST entry of the upstream
    [result] object, whatever its key: they build the same record as from
    an answer holding that entry alone, labelled with the requested pair.
    (The object's list of entries is taken in [Object.keys] order.) *)
Theorem per_pair_fetch_reads_first_key net (pair : string) (count : nat) (w : world)
    (k : string) (d : val) (fs : list (string * val)) :
  let only_first := fun _ : string => ok_envelope (VObj [(k, d)]) in
  (fst (Kraken.makeRequest net ("/public/Ticker?pair=" ++ pair) w) = Ok (VObj ((k, d) :: fs)) ->
   fst (Kraken.getTickerData net pair w) = fst (Kraken.getTickerData only_first pair w)) /\
  (fst (Kraken.makeRequest net ("/public/Depth?pair=" ++ pair ++ "&count=" ++ string_of_nat count) w)
     = Ok (VObj ((k, d) :: fs)) ->
   fst (Kraken.getOrderBook net pair count w) = fst (Kraken.getOrderBook only_first pair count w)) /\
  (fst (Kraken.makeRequest net ("/public/Trades?pair=" ++ pair ++ "&count=" ++ string_of_nat count) w)
     = Ok (VObj ((k, d) :: fs)) ->
   fst (Kraken.getRecentTrades net pair count w) = fst (Kraken.getRecentTrades only_first pair count w)).
Proof.
  intros only_first. subst only_first.
  unfold Kraken.getTickerData, Kraken.getOrderBook, Kraken.getRecentTrades.
  rewrite !api_call_run. cbn [fst]. rewrite !makeRequest_ok_envelope.
  split; [|split]; intros H; rewrite H; cbn [obind]; now rewrite !first_entry_head.
Qed.

Lemma per_pair_fetch_reads_first_key_witness :
  fst (Kraken.getTickerData (fun _ => ok_envelope sample_ticker_result) "ETHUSD" sample_world) =
  fst (Kraken.getTickerData (fun _ => ok_envelope (VObj [("XXBTZUSD", sample_entry)]))
         "ETHUSD" sample_world).
Proof.
  apply (proj1 (per_pair_fetch_reads_first_key (fun _ => ok_envelope sample_ticker_result)
                  "ETHUSD" 0 sample_world "XXBTZUSD" sample_entry
                  (map (fun k => (k, sample_entry))
                     ["XETHZUSD"; "ADAUSD"; "DOTUSD"; "SOLUSD"; "MATICUSD"; "LINKUSD"; "UNIUSD"]))).
  apply makeRequest_ok_envelope.
Defined.

(* ------------------------------------------------------------------ *)
(** ** Routes, the auth status, the timer, the message handler and the client cache *)

Lemma first_present_empty (ks : list string) : Kraken.first_present (VObj []) ks = Ok "".
Proof. induction ks as [|k ks IH]; [reflexivity|]. cbn. exact IH. Qed.

(** An upstream [result] with no entries makes the fetches fail: when
    [makeRequest] resolves to [{}], [undefined] or [null], the three
    per-pair fetches throw a [TypeError] (they read fields of
    [result[undefined]]); when a batch request resolves to [{}],
    [getMultipleTickers] rejects with "No data found for pair p" for the
    first requested pair [p]. *)
Theorem empty_result_fetches_throw net (pair p : string) (ps : list string) (count : nat)
    (w : world) (r : val) :
  (r = VObj [] \/ nullish r = true) ->
  (fst (Kraken.makeRequest net ("/public/Ticker?pair=" ++ pair) w) = Ok r ->
   fst (Kraken.getTickerData net pair w) = Throw TypeError) /\
  (fst (Kraken.makeRequest net ("/public/Depth?pair=" ++ pair ++ "&count=" ++ string_of_nat count) w)
     = Ok r ->
   fst (Kraken.getOrderBook net pair count w) = Throw TypeError) /\
  (fst (Kraken.makeRequest net ("/public/Trades?pair=" ++ pair ++ "&count=" ++ string_of_nat count) w)
     = Ok r ->
   fst (Kraken.getRecentTrades net pair count w) = Throw TypeError) /\
  (fst (Kraken.makeRequest net ("/public/Ticker?pair=" ++ join_comma (p :: ps)) w) = Ok (VObj []) ->
   fst (Kraken.getMultipleTickers net (p :: ps) w) = Throw (NoDataFound p)).
Proof.
  intros Hr.
  unfold Kraken.getTickerData, Kraken.getOrderBook, Kraken.getRecentTrades,
    Kraken.getMultipleTickers.
  rewrite !api_call_run. cbn [fst].
  split; [|split; [|split]]; intros H; rewrite H; cbn [obind].
  - destruct Hr as [->|Hn]; [reflexivity|]. destruct r; try discriminate; reflexivity.
  - destruct Hr as [->|Hn]; [reflexivity|]. destruct r; try discriminate; reflexivity.
  - destruct Hr as [->|Hn]; [reflexivity|]. destruct r; try discriminate; reflexivity.
  - cbn [mapM_outcome]. unfold Kraken.multiple_ticker_entry, Kraken.resolve_pair_key.
    rewrite first_present_empty. reflexivity.
Qed.

Lemma empty_result_fetches_throw_witness :
  fst (Kraken.getMultipleTickers (fun _ => ok_envelope (VObj [])) ["XBTUSD"; "ETHUSD"] sample_world)
    = Throw (NoDataFound "XBTUSD").
Proof.
  apply (empty_result_fetches_throw (fun _ => ok_envelope (VObj [])) "XBTUSD" "XBTUSD" ["ETHUSD"]
           0 sample_world (VObj []) (or_introl eq_refl)).
  apply makeRequest_ok_envelope.
Defined.

Lemma before_slash_no_slash (a : string) :
  ~ In "/"%char (Stdlib.Strings.String.list_ascii_of_string a) -> before_slash a = a.
Proof.
  induction a as [|c a IH]; intros H; [reflexivity|]. cbn in *.
  destruct (Ascii.eqb_spec c "/"); [subst; tauto|]. f_equal. apply IH. tauto.
Qed.

Lemma before_slash_first_slash (a b : string) :
  ~ In "/"%char (Stdlib.Strings.String.list_ascii_of_string a) ->
  before_slash (a ++ String "/" b) = a.
Proof.
  induction a as [|c a IH]; intros H; [reflexivity|]. simpl in *.
  destruct (Ascii.eqb_spec c "/"); [subst; tauto|]. f_equal. apply IH. tauto.
Qed.

(** For a pair that is neither a key of the display-name table nor a
    member inherited from [Object.prototype], [getPairDisplayName] returns
    the text before its first '/', or the whole pair when it contains no
    '/'. *)
Theorem getPairDisplayName_fallback (pair : string) :
  ~ In pair object_prototype_members ->
  lookup_table pair Kraken.names = None ->
  (forall a b, ~ In "/"%char (Stdlib.Strings.String.list_ascii_of_string a) ->
     pair = a ++ String "/" b -> Kraken.getPairDisplayName pair = a) /\
  (~ In "/"%char (Stdlib.Strings.String.list_ascii_of_string pair) ->
     Kraken.getPairDisplayName pair = pair).
Proof.
  intros _ Hn. unfold Kraken.getPairDisplayName. rewrite Hn. split.
  - intros a b Ha ->. now apply before_slash_first_slash.
  - apply before_slash_no_slash.
Qed.

Lemma getPairDisplayName_fallback_witness :
  Kraken.getPairDisplayName "XRP/EUR" = "XRP" /\ Kraken.getPairDisplayName "XRPUSD" = "XRPUSD".
Proof.
  split.
  - apply (proj1 (getPairDisplayName_fallback "XRP/EUR" ltac:(cbn; intuition discriminate) eq_refl) "XRP" "EUR");
      [cbn; intuition discriminate | reflexivity].
  - apply (proj2 (getPairDisplayName_fallback "XRPUSD" ltac:(cbn; intuition discriminate) eq_refl)). cbn; intuition discriminate.
Defined.

(** [getPairIcon] and [getPairColor] read the same symbol: a pair gets the
    bitcoin icon exactly when it gets the orange colour, the ethereum icon
    exactly when it gets [bg-blue-500], and a pair with the generic coin
    icon gets neither colour. *)
Theorem icon_color_agree (pair : string) :
  (Kraken.getPairIcon pair = "fab fa-bitcoin" <-> Kraken.getPairColor pair = "bg-orange-500") /\
  (Kraken.getPairIcon pair = "fab fa-ethereum" <-> Kraken.getPairColor pair = "bg-blue-500") /\
  (Kraken.getPairIcon pair = "fas fa-coins" -> Kraken.getPairColor pair <> "bg-orange-500" /\
                                               Kraken.getPairColor pair <> "bg-blue-500").
Proof.
  unfold Kraken.getPairIcon, Kraken.getPairColor.
  generalize (replace_first "X" (before_slash pair)) as s. intros s.
  cbn [lookup_table Kraken.icons Kraken.colors].
  repeat match goal with
         | |- context [String.eqb s ?k] => destruct (String.eqb_spec s k); [subst s|]
         end;
  cbn; repeat split; intros; try discriminate; try reflexivity.
Qed.

Lemma trade_side_buy (s : val) :
  (match s with VStr "b" => Trade.buy | _ => Trade.sell end) = Trade.buy <-> s = VStr "b".
Proof.
  destruct s as [| | | |str| |]; try (split; intros H; discriminate H).
  destruct str as [|c r]; try (split; intros H; discriminate H).
  destruct c as [b0 b1 b2 b3 b4 b5 b6 b7];
    destruct b0, b1, b2, b3, b4, b5, b6, b7, r; split; intros H;
    solve [reflexivity | discriminate H].
Qed.

(** A successful [getRecentTrades] is labelled with the requested pair and
    has one trade per element of the array found under the first key of
    the upstream [result], in the same order: price, volume and time are
    read from the element's fields 0, 1 and 2, and the trade is a buy
    exactly when field 3 is the string "b" (any other value, or a missing
    field, gives a sell). *)
Theorem getRecentTrades_ok net (pair : string) (count : nat) (w : world) (rt : RecentTrades.t) :
  fst (Kraken.getRecentTrades net pair count w) = Ok rt ->
  RecentTrades.pair rt = pair /\
  exists result xs,
    fst (Kraken.makeRequest net ("/public/Trades?pair=" ++ pair ++ "&count=" ++ string_of_nat count) w)
      = Ok result /\
    Kraken.first_entry result = Ok (VArr xs) /\
    Forall2 (fun x t => exists p v tm s,
               idx x 0 = Ok p /\ idx x 1 = Ok v /\ idx x 2 = Ok tm /\ idx x 3 = Ok s /\
               Trade.price t = parseFloat p /\ Trade.volume t = parseFloat v /\
               Trade.time t = tm /\ (Trade.tside t = Trade.buy <-> s = VStr "b"))
            xs (RecentTrades.trades rt).
Proof.
  unfold Kraken.getRecentTrades. rewrite api_call_run. cbn [fst].
  destruct (fst (Kraken.makeRequest _ _ w)) as [res|e]; cbn [obind]; [|discriminate].
  destruct (Kraken.first_entry res) as [d|e] eqn:Ed; cbn [obind]; [|discriminate].
  destruct d as [| | | | |xs|]; cbn [array_map obind]; try discriminate.
  destruct (mapM_outcome Kraken.trade_of xs) as [ts|e] eqn:Em; cbn [obind]; [|discriminate].
  intros H. injection H as <-. split; [reflexivity|].
  exists res, xs. split; [reflexivity|]. split; [exact Ed|]. cbn [RecentTrades.trades].
  apply mapM_outcome_Forall2 in Em. eapply Forall2_impl; [exact Em|].
  intros x t Ht. unfold Kraken.trade_of in Ht.
  destruct (idx x 0) as [p|e] eqn:E0; cbn in Ht; [|discriminate].
  destruct (idx x 1) as [v|e] eqn:E1; cbn in Ht; [|discriminate].
  destruct (idx x 2) as [tm|e] eqn:E2; cbn in Ht; [|discriminate].
  destruct (idx x 3) as [s|e] eqn:E3; cbn in Ht; [|discriminate].
  injection Ht as <-. exists p, v, tm, s. repeat split; try reflexivity.
  - apply trade_side_buy.
  - apply trade_side_buy.
Qed.

Lemma getRecentTrades_ok_witness :
  exists rt, fst (Kraken.getRecentTrades one_trade_net "XBTUSD" 2 sample_world) = Ok rt /\
    RecentTrades.pair rt = "XBTUSD" /\ length (RecentTrades.trades rt) = 2.
Proof.
  eexists. split; [reflexivity|].
  split.
  - exact (proj1 (getRecentTrades_ok one_trade_net "XBTUSD" 2 sample_world _ eq_refl)).
  - reflexivity.
Defined.

(** Each public upstream call makes exactly one request, to the endpoint's
    URL, whether it resolves or throws, and changes nothing else: no store
    write and no WebSocket message. *)
Theorem api_calls_one_request net (pair : string) (count : nat) (pairs : list string) (w : world) :
  snd (Kraken.getTickerData net pair w) = add_fetch w (ticker_url pair) /\
  snd (Kraken.getOrderBook net pair count w) = add_fetch w (depth_url pair count) /\
  snd (Kraken.getRecentTrades net pair count w) = add_fetch w (trades_url pair count) /\
  snd (Kraken.getMultipleTickers net pairs w) = add_fetch w (ticker_url (join_comma pairs)) /\
  snd (Kraken.getSystemStatus net w) = add_fetch w (Kraken.baseUrl ++ "/public/SystemStatus").
Proof.
  rewrite getTickerData_run, getOrderBook_run, getRecentTrades_run, getMultipleTickers_run.
  repeat split. apply makeRequest_world.
Qed.

Lemma book_entries_Forall2 (xs : list val) (es : list OrderBookEntry.t) :
  mapM_outcome Kraken.book_entry xs = Ok es ->
  Forall2 (fun x e => exists p v t, idx x 0 = Ok p /\ idx x 1 = Ok v /\ idx x 2 = Ok t /\
             e = OrderBookEntry.mk (parseFloat p) (parseFloat v) t) xs es.
Proof.
  intros H. apply mapM_outcome_Forall2 in H. eapply Forall2_impl; [exact H|].
  intros x e He. unfold Kraken.book_entry in He.
  destruct (idx x 0) as [p|?]; cbn in He; [|discriminate].
  destruct (idx x 1) as [v|?]; cbn in He; [|discriminate].
  destruct (idx x 2) as [t|?]; cbn in He; [|discriminate].
  injection He as <-. eauto 7.
Qed.

(** A successful [getOrderBook] is labelled with the requested pair and
    has one ask (bid) per element of the upstream [asks] ([bids]) array, in
    the same order, with price and volume parsed from fields 0 and 1 and
    the timestamp taken from field 2; when the first bid's price is not
    positive, [spreadPercent] is 0. *)
Theorem getOrderBook_ok net (pair : string) (count : nat) (w : world) (ob : OrderBook.t) :
  fst (Kraken.getOrderBook net pair count w) = Ok ob ->
  OrderBook.pair ob = pair /\
  exists result d av bv,
    fst (Kraken.makeRequest net ("/public/Depth?pair=" ++ pair ++ "&count=" ++ string_of_nat count) w)
      = Ok result /\
    Kraken.first_entry result = Ok d /\ prop d "asks" = Ok (VArr av) /\ prop d "bids" = Ok (VArr bv) /\
    Forall2 (fun x e => exists p v t, idx x 0 = Ok p /\ idx x 1 = Ok v /\ idx x 2 = Ok t /\
               e = OrderBookEntry.mk (parseFloat p) (parseFloat v) t) av (OrderBook.asks ob) /\
    Forall2 (fun x e => exists p v t, idx x 0 = Ok p /\ idx x 1 = Ok v /\ idx x 2 = Ok t /\
               e = OrderBookEntry.mk (parseFloat p) (parseFloat v) t) bv (OrderBook.bids ob) /\
    (PrimFloat.ltb fzero (Kraken.best_price (OrderBook.bids ob)) = false ->
     OrderBook.spreadPercent ob = fzero).
Proof.
  unfold Kraken.getOrderBook. rewrite api_call_run. cbn [fst].
  destruct (fst (Kraken.makeRequest _ _ w)) as [res|e]; cbn [obind]; [|discriminate].
  destruct (Kraken.first_entry res) as [d|e] eqn:Ed; cbn [obind]; [|discriminate].
  destruct (prop d "asks") as [a|e] eqn:Ea; cbn [obind]; [|discriminate].
  destruct a as [| | | | |av|]; cbn [array_map obind]; try discriminate.
  destruct (mapM_outcome Kraken.book_entry av) as [asks|e] eqn:Ema; cbn [obind]; [|discriminate].
  destruct (prop d "bids") as [b|e] eqn:Eb; cbn [obind]; [|discriminate].
  destruct b as [| | | | |bv|]; cbn [array_map obind]; try discriminate.
  destruct (mapM_outcome Kraken.book_entry bv) as [bids|e] eqn:Emb; cbn [obind]; [|discriminate].
  intros H. injection H as <-. split; [reflexivity|].
  exists res, d, av, bv. cbn [OrderBook.asks OrderBook.bids OrderBook.spreadPercent].
  split; [reflexivity|]. split; [exact Ed|]. split; [exact Ea|]. split; [exact Eb|].
  split; [now apply book_entries_Forall2|]. split; [now apply book_entries_Forall2|].
  intros Hb. now rewrite Hb.
Qed.

Lemma getOrderBook_ok_witness :
  exists ob, fst (Kraken.getOrderBook sample_net "XBTUSD" 5 sample_world) = Ok ob /\
    OrderBook.pair ob = "XBTUSD" /\ OrderBook.asks ob = [].
Proof.
  eexists. split; [reflexivity|]. split.
  - exact (proj1 (getOrderBook_ok sample_net "XBTUSD" 5 sample_world _ eq_refl)).
  - reflexivity.
Defined.

(** [GET /api/cached] only reads the store: whatever the type and pair it
    answers without any upstream request, leaves the world unchanged, and
    never answers 500. *)
Theorem get_cached_read_only (type : string) (pair : option string) (w : world) :
  exists r, CachedRoute.get_cached type pair w = (Ok r, w) /\
    (forall e m, r <> CachedRoute.Status500 e m).
Proof.
  unfold CachedRoute.get_cached, Storage.getTickerData, Storage.getAllTickerData,
    Storage.getOrderBook, Storage.getRecentTrades, Storage.getMarketData, Storage.getLastUpdated.
  unfold_monad.
  destruct (String.eqb type "ticker"); [destruct (CachedRoute.present pair)|];
  [| |destruct (String.eqb type "orderbook"); [destruct (CachedRoute.present pair)|];
      [| |destruct (String.eqb type "trades"); [destruct (CachedRoute.present pair)|];
         [| |destruct (String.eqb type "market-data")]]];
  eexists; (split; [reflexivity|]); intros e m; discriminate.
Qed.

(** [GET /api/cached] with a missing or empty pair answers 400 for the
    order-book and trades types, and any type other than the four known
    ones answers 400 "Invalid type". *)
Theorem get_cached_bad_request (type : string) (pair : option string) (w : world) :
  (pair = None \/ pair = Some "") ->
  CachedRoute.get_cached "orderbook" pair w =
    (Ok (CachedRoute.Status400 "Pair required for order book"), w) /\
  CachedRoute.get_cached "trades" pair w =
    (Ok (CachedRoute.Status400 "Pair required for trades"), w) /\
  (~ In type ["ticker"; "orderbook"; "trades"; "market-data"] ->
   CachedRoute.get_cached type pair w = (Ok (CachedRoute.Status400 "Invalid type"), w)).
Proof.
  intros Hp.
  assert (Hn : CachedRoute.present pair = None) by (destruct Hp as [->| ->]; reflexivity).
  unfold CachedRoute.get_cached. unfold_monad. rewrite Hn. cbn.
  split; [reflexivity|]. split; [reflexivity|].
  intros Ht. cbn in Ht.
  destruct (String.eqb_spec type "ticker"); [subst; tauto|].
  destruct (String.eqb_spec type "orderbook"); [subst; tauto|].
  destruct (String.eqb_spec type "trades"); [subst; tauto|].
  destruct (String.eqb_spec type "market-data"); [subst; tauto|].
  reflexivity.
Qed.

Lemma get_cached_bad_request_witness :
  CachedRoute.get_cached "orders" (Some "") sample_world =
    (Ok (CachedRoute.Status400 "Invalid type"), sample_world).
Proof.
  apply (get_cached_bad_request "orders" (Some "") sample_world (or_intror eq_refl)).
  cbn. intuition discriminate.
Defined.

Lemma present_nonempty (pair : string) : pair <> "" -> CachedRoute.present (Some pair) = Some pair.
Proof.
  intros H. unfold CachedRoute.present, truthy.
  destruct (String.eqb_spec pair ""); [contradiction|reflexivity].
Qed.

(** The per-pair routes and the cached route agree: after a successful
    [GET /api/ticker], [/api/orderbook] or [/api/trades] for a non-empty
    pair, the cached route of that kind answers the very record the route
    returned; after a successful [GET /api/market-data], the cached market
    data is the returned list with [lastUpdated] equal to the time of the
    request. *)
Theorem cached_after_fetch net (pair : string) (q : option nat) (w : world) :
  pair <> "" ->
  (forall t, fst (Routes.get_ticker net pair w) = Ok (Routes.Status200 (Routes.BTicker t)) ->
     fst (CachedRoute.get_cached "ticker" (Some pair) (snd (Routes.get_ticker net pair w)))
       = Ok (CachedRoute.Status200 (CachedRoute.CTicker (Some t)))) /\
  (forall o, fst (Routes.get_orderbook net pair q w) = Ok (Routes.Status200 (Routes.BOrderBook o)) ->
     fst (CachedRoute.get_cached "orderbook" (Some pair) (snd (Routes.get_orderbook net pair q w)))
       = Ok (CachedRoute.Status200 (CachedRoute.COrderBook (Some o)))) /\
  (forall r, fst (Routes.get_trades net pair q w) = Ok (Routes.Status200 (Routes.BTrades r)) ->
     fst (CachedRoute.get_cached "trades" (Some pair) (snd (Routes.get_trades net pair q w)))
       = Ok (CachedRoute.Status200 (CachedRoute.CTrades (Some r)))) /\
  (forall ms, fst (Routes.get_market_data net w) = Ok (Routes.Status200 (Routes.BMarket ms)) ->
     fst (CachedRoute.get_cached "market-data" None (snd (Routes.get_market_data net w)))
       = Ok (CachedRoute.Status200 (CachedRoute.CMarket ms (Some (now w))))).
Proof.
  intros Hp.
  unfold Routes.get_ticker, Routes.get_orderbook, Routes.get_trades, Routes.get_market_data,
    try_catch.
  rewrite !bind_run, getTickerData_run, getOrderBook_run, getRecentTrades_run,
    getMultipleTickers_run.
  unfold CachedRoute.get_cached. rewrite present_nonempty by exact Hp.
  split; [|split; [|split]].
  - destruct (fst (Kraken.getTickerData net pair w)) as [t'|e]; cbn; intros t H; [|discriminate].
    injection H as <-. unfold Storage.getTickerData, Storage.setTickerData, modify_storage.
    unfold_monad. cbn. now rewrite lookup_insert_eq.
  - destruct (fst (Kraken.getOrderBook net pair _ w)) as [o'|e]; cbn; intros o H; [|discriminate].
    injection H as <-. unfold Storage.getOrderBook, Storage.setOrderBook, modify_storage.
    unfold_monad. cbn. now rewrite lookup_insert_eq.
  - destruct (fst (Kraken.getRecentTrades net pair _ w)) as [r'|e]; cbn; intros r H; [|discriminate].
    injection H as <-. unfold Storage.getRecentTrades, Storage.setRecentTrades, modify_storage.
    unfold_monad. cbn. now rewrite lookup_insert_eq.
  - destruct (fst (Kraken.getMultipleTickers net _ w)) as [ms'|e]; cbn; intros ms H; [|discriminate].
    injection H as <-. unfold Storage.getMarketData, Storage.getLastUpdated, Storage.setMarketData,
      Storage.setLastUpdated, modify_storage, new_Date.
    unfold_monad. reflexivity.
Qed.

Lemma cached_after_fetch_witness :
  exists t, fst (Routes.get_ticker sample_net "XBTUSD" sample_world)
              = Ok (Routes.Status200 (Routes.BTicker t)) /\
    fst (CachedRoute.get_cached "ticker" (Some "XBTUSD")
           (snd (Routes.get_ticker sample_net "XBTUSD" sample_world)))
      = Ok (CachedRoute.Status200 (CachedRoute.CTicker (Some t))).
Proof.
  eexists. split; [reflexivity|].
  apply (proj1 (cached_after_fetch sample_net "XBTUSD" None sample_world ltac:(discriminate))).
  reflexivity.
Defined.

(** Each per-pair route makes its one upstream request (the order-book
    and trades counts default to 5 and 100 when the query gives 0 or
    nothing) and never throws: on success it answers 200 with the record
    and stores it under the pair, on failure it answers 500 with the
    error's message and leaves the store as it was. *)
Theorem per_pair_routes_run net (pair : string) (q : option nat) (w : world) :
  Routes.get_ticker net pair w =
    match fst (Kraken.getTickerData net pair w) with
    | Ok t => (Ok (Routes.Status200 (Routes.BTicker t)),
               snd (Storage.setTickerData pair t (add_fetch w (ticker_url pair))))
    | Throw e => (Ok (Routes.Status500 "Failed to fetch ticker data" (Routes.message e)),
                  add_fetch w (ticker_url pair))
    end /\
  Routes.get_orderbook net pair q w =
    match fst (Kraken.getOrderBook net pair (Routes.count_or q 5) w) with
    | Ok o => (Ok (Routes.Status200 (Routes.BOrderBook o)),
               snd (Storage.setOrderBook pair o (add_fetch w (depth_url pair (Routes.count_or q 5)))))
    | Throw e => (Ok (Routes.Status500 "Failed to fetch order book" (Routes.message e)),
                  add_fetch w (depth_url pair (Routes.count_or q 5)))
    end /\
  Routes.get_trades net pair q w =
    match fst (Kraken.getRecentTrades net pair (Routes.count_or q 100) w) with
    | Ok r => (Ok (Routes.Status200 (Routes.BTrades r)),
               snd (Storage.setRecentTrades pair r (add_fetch w (trades_url pair (Routes.count_or q 100)))))
    | Throw e => (Ok (Routes.Status500 "Failed to fetch recent trades" (Routes.message e)),
                  add_fetch w (trades_url pair (Routes.count_or q 100)))
    end.
Proof.
  unfold Routes.get_ticker, Routes.get_orderbook, Routes.get_trades, try_catch.
  rewrite !bind_run, getTickerData_run, getOrderBook_run, getRecentTrades_run.
  split; [|split];
    [destruct (fst (Kraken.getTickerData net pair w))
    |destruct (fst (Kraken.getOrderBook net pair _ w))
    |destruct (fst (Kraken.getRecentTrades net pair _ w))];
    reflexivity.
Qed.

(** [getAuthenticationStatus]: the service counts as authenticated exactly
    when both keys are configured; the rate limit is 500 ms with an API key
    and 1000 ms without; a key counts as configured exactly when it is set
    to a non-empty string. *)
Theorem getAuthenticationStatus_fields (apiKey privateKey : option string) :
  let st := Kraken.getAuthenticationStatus apiKey privateKey in
  Kraken.st_isAuthenticated st = Kraken.apiKeyConfigured st && Kraken.privateKeyConfigured st /\
  Kraken.st_rateLimitMs st = (if Kraken.apiKeyConfigured st then 500 else 1000)%Z /\
  (Kraken.apiKeyConfigured st = true <-> exists k, apiKey = Some k /\ k <> "") /\
  (Kraken.privateKeyConfigured st = true <-> exists k, privateKey = Some k /\ k <> "").
Proof.
  cbn. unfold Kraken.isAuthenticated, Kraken.rateLimitMs.
  repeat split; try reflexivity;
  [destruct apiKey as [k|] | destruct apiKey as [k|] | destruct privateKey as [k|] | destruct privateKey as [k|]];
  cbn; try discriminate; try (intros (k' & H & _); discriminate H).
  - destruct (String.eqb_spec k ""); cbn; [discriminate|]. intros _. eauto.
  - intros (k' & [= <-] & Hk). destruct (String.eqb_spec k ""); [contradiction|reflexivity].
  - destruct (String.eqb_spec k ""); cbn; [discriminate|]. intros _. eauto.
  - intros (k' & [= <-] & Hk). destruct (String.eqb_spec k ""); [contradiction|reflexivity].
Qed.

Lemma makePrivateRequest_world post_net ep data (w : world) :
  snd (Kraken.makePrivateRequest post_net ep data w)
    = add_fetch w (Kraken.baseUrl ++ ep).
Proof.
  unfold Kraken.makePrivateRequest, Kraken.rateLimitedPost, new_Date; unfold_monad; cbn.
  destruct (post_net _ _) as [r|]; cbn; [|reflexivity].
  destruct (ok r); cbn; [|reflexivity].
  destruct (body r) as [d|]; cbn; [|reflexivity].
  destruct (Kraken.krakenApiErrorSchema_parse d) as [[errs res]|]; cbn; [|reflexivity].
  destruct (length errs); reflexivity.
Qed.

(** [GET /api/auth-status] requests the account balance only when both
    keys are configured, then always requests the system status.  A
    failing balance request gives [account: {error: ...}] and does not fail
    the route; a failing system-status request gives 500.  The store and
    the WebSocket messages are never touched. *)
Theorem get_auth_status_run net post_net (apiKey privateKey : option string) (w : world) :
  let st := Kraken.getAuthenticationStatus apiKey privateKey in
  let account :=
    if Kraken.st_isAuthenticated st then
      match fst (Kraken.getAccountBalance post_net w) with
      | Ok b => AuthStatusRoute.AccountBalance b
      | Throw _ => AuthStatusRoute.AccountError
      end
    else AuthStatusRoute.AccountNull in
  AuthStatusRoute.get_auth_status net post_net apiKey privateKey w =
  (Ok (match fst (Kraken.getSystemStatus net w) with
       | Ok s => AuthStatusRoute.Status200 st account s
       | Throw e => AuthStatusRoute.Status500 "Failed to fetch authentication status" (Routes.message e)
       end),
   mkWorld (storage w) (now w)
     (fetched w ++ (if Kraken.st_isAuthenticated st then [balance_url] else []) ++ [status_url])
     (clients w) (outbox w)).
Proof.
  intros st account. subst account.
  unfold AuthStatusRoute.get_auth_status, Kraken.getSystemStatus. fold st.
  unfold try_catch at 1. rewrite bind_run.
  assert (Hsys : forall w1, fetched w1 = app (fetched w) (if Kraken.st_isAuthenticated st then [balance_url] else []) ->
            storage w1 = storage w -> now w1 = now w -> clients w1 = clients w -> outbox w1 = outbox w ->
            forall acc,
            (x ← Kraken.makeRequest net "/public/SystemStatus";
             mret (AuthStatusRoute.Status200 st acc x)) w1 =
            (match fst (Kraken.makeRequest net "/public/SystemStatus" w) with
             | Ok s => Ok (AuthStatusRoute.Status200 st acc s)
             | Throw e => Throw e end,
             mkWorld (storage w) (now w)
               (fetched w ++ (if Kraken.st_isAuthenticated st then [balance_url] else []) ++ [status_url])
               (clients w) (outbox w))).
  { intros w1 Hf Hs Hn Hc Ho acc. rewrite bind_run.
    pose proof (makeRequest_world net "/public/SystemStatus" w1) as Hw2.
    rewrite (makeRequest_outcome_indep net "/public/SystemStatus" w w1).
    destruct (Kraken.makeRequest net "/public/SystemStatus" w1) as [[s|e] w2]; cbn in Hw2; subst w2;
      unfold add_fetch, status_url; rewrite Hf, Hs, Hn, Hc, Ho, <- app_assoc; reflexivity. }
  destruct (Kraken.st_isAuthenticated st) eqn:Ea.
  - unfold Kraken.getAccountBalance, try_catch. rewrite bind_run.
    pose proof (makePrivateRequest_world post_net "/private/Balance" "" w) as Hw1.
    destruct (Kraken.makePrivateRequest post_net "/private/Balance" "" w) as [[b|e] w1];
      cbn in Hw1 |- *; subst w1; unfold_monad; cbn -[Kraken.makeRequest];
      rewrite Hsys by reflexivity;
      destruct (fst (Kraken.makeRequest net "/public/SystemStatus" w)); reflexivity.
  - unfold_monad. cbn -[Kraken.makeRequest].
    rewrite Hsys by (cbn; rewrite ?app_nil_r; reflexivity).
    destruct (fst (Kraken.makeRequest net "/public/SystemStatus" w)); reflexivity.
Qed.

Lemma broadcast_all_outbox (ms : list MarketData.t) (w : world) :
  Routes.broadcast_all ms w =
  (Ok tt, mkWorld (storage w) (now w) (fetched w) (clients w)
            (outbox w ++ tick_messages (open_clients w) ms)).
Proof.
  revert w. induction ms as [|m ms IH]; intros w; cbn.
  - destruct w; cbn. now rewrite app_nil_r.
  - unfold_monad. unfold Routes.broadcast at 1. cbn. rewrite IH. cbn.
    unfold open_clients, tick_messages. cbn. now rewrite app_assoc.
Qed.

(** A timer cycle with at least one connected client makes exactly one
    bulk ticker request.  On success it replaces [marketData] with the
    result and sends, for each record in order, one ticker message to each
    open client (none to clients that are connecting or closing); on
    failure it changes nothing else. *)
Theorem broadcast_tick_run net (w : world) :
  clients w <> [] ->
  Routes.broadcast_tick net w =
  match fst (Kraken.getMultipleTickers net Routes.POPULAR_PAIRS w) with
  | Ok ms =>
      (Ok tt, mkWorld (mkStorage (tickerData (storage w)) (orderBooks (storage w))
                         (recentTrades (storage w)) ms (lastUpdated (storage w)))
                (now w) (fetched w ++ [bulk_url]) (clients w)
                (outbox w ++ tick_messages (open_clients w) ms))
  | Throw _ => (Ok tt, add_fetch w bulk_url)
  end.
Proof.
  intros Hc. unfold Routes.broadcast_tick, get_world. unfold_monad.
  cbn -[Kraken.getMultipleTickers Routes.broadcast_all].
  destruct (clients w) as [|c cs] eqn:Ec; [contradiction|].
  cbn -[Kraken.getMultipleTickers Routes.broadcast_all].
  rewrite getMultipleTickers_run.
  destruct (fst (Kraken.getMultipleTickers net Routes.POPULAR_PAIRS w)) as [ms|e];
    cbn -[Routes.broadcast_all]; [|reflexivity].
  unfold Storage.setMarketData, modify_storage. rewrite broadcast_all_outbox.
  unfold open_clients. cbn. now rewrite Ec.
Qed.

Lemma broadcast_tick_run_witness :
  Routes.broadcast_tick error_net (mkWorld new_MemStorage 5 [] [mkClient 1 CLOSED] []) =
  (Ok tt, add_fetch (mkWorld new_MemStorage 5 [] [mkClient 1 CLOSED] []) bulk_url).
Proof.
  rewrite (broadcast_tick_run error_net (mkWorld new_MemStorage 5 [] [mkClient 1 CLOSED] [])
           ltac:(cbn; discriminate)).
  reflexivity.
Defined.

Lemma initial_push_run net (ws : nat) (pair : string) (w : world) :
  Routes.initial_push net ws pair w =
  (Ok tt, mkWorld (storage w) (now w) (fetched w) (clients w)
            (outbox w ++ if client_open w ws then pushed_from_store (storage w) ws pair else [])).
Proof.
  unfold Routes.initial_push, call_async, js_or_promise, promise_truthy, await_promise,
    Routes.ws_is_open, Routes.ws_send, Storage.getTickerData, Storage.getOrderBook,
    Storage.getRecentTrades, client_open, pushed_from_store.
  unfold_monad. cbn.
  destruct w as [s t f cs ob]; cbn.
  destruct (existsb _ cs); cbn; [|now rewrite app_nil_r].
  now rewrite <- !app_assoc.
Qed.

Lemma initial_push_all_run net (ws : nat) (pairs : list string) (w : world) :
  Routes.initial_push_all net ws pairs w =
  (Ok tt, mkWorld (storage w) (now w) (fetched w) (clients w)
            (outbox w ++ if client_open w ws
                         then concat (map (pushed_from_store (storage w) ws) pairs) else [])).
Proof.
  revert w. induction pairs as [|p ps IH]; intros w; cbn.
  - destruct (client_open w ws); destruct w; cbn; now rewrite app_nil_r.
  - unfold_monad. rewrite initial_push_run. cbn. rewrite IH. cbn.
    unfold client_open. destruct (existsb _ (clients w)); cbn;
      [now rewrite <- app_assoc | now rewrite !app_nil_r].
Qed.

(** The WebSocket message handler never fetches and never writes the
    store.  A subscription sends, to an open socket, the store's ticker,
    order book and trades for each requested pair in order (the eight
    popular pairs when no list is given), and nothing to a socket that is
    not open; any other message does nothing. *)
Theorem on_message_run net (ws : nat) (msg : Routes.client_msg) (w : world) :
  Routes.on_message net ws msg w =
  (Ok tt, mkWorld (storage w) (now w) (fetched w) (clients w)
            (outbox w ++ match msg with
                         | Routes.OtherMessage => []
                         | Routes.Subscribe ps =>
                             if client_open w ws
                             then concat (map (pushed_from_store (storage w) ws)
                                              (match ps with Some xs => xs
                                                        | None => Routes.POPULAR_PAIRS end))
                             else []
                         end)).
Proof.
  unfold Routes.on_message, try_catch.
  destruct msg as [ps|].
  - now rewrite initial_push_all_run.
  - unfold_monad. cbn. destruct w; cbn. now rewrite app_nil_r.
Qed.

Lemma set_key_same (k : string) (v : val) (fs : list (string * val)) :
  assoc_get k (ClientCache.set_key k v fs) = Some v.
Proof.
  induction fs as [|[k' v'] fs IH]; cbn.
  - now rewrite String.eqb_refl.
  - destruct (String.eqb_spec k k'); cbn.
    + subst. now rewrite String.eqb_refl.
    + apply String.eqb_neq in n. now rewrite n.
Qed.

Lemma set_key_other (k k' : string) (v : val) (fs : list (string * val)) :
  k <> k' -> assoc_get k (ClientCache.set_key k' v fs) = assoc_get k fs.
Proof.
  intros Hk. induction fs as [|[k'' v''] fs IH]; cbn.
  - apply String.eqb_neq in Hk. now rewrite Hk.
  - destruct (String.eqb_spec k' k''); cbn.
    + subst. apply String.eqb_neq in Hk. now rewrite Hk.
    + destruct (String.eqb k k''); [reflexivity|exact IH].
Qed.

Lemma spread_fold_notin (k : string) (es acc : list (string * val)) :
  ~ In k (map fst es) ->
  assoc_get k (fold_left (fun a kv => ClientCache.set_key (fst kv) (snd kv) a) es acc)
  = assoc_get k acc.
Proof.
  revert acc. induction es as [|[k' v'] es IH]; intros acc Hn; cbn in *; [reflexivity|].
  rewrite IH by tauto. apply set_key_other. intros ->. tauto.
Qed.

Lemma spread_fold_in (k : string) (v : val) (es acc : list (string * val)) :
  NoDup (map fst es) -> In (k, v) es ->
  assoc_get k (fold_left (fun a kv => ClientCache.set_key (fst kv) (snd kv) a) es acc) = Some v.
Proof.
  revert acc. induction es as [|[k' v'] es IH]; intros acc Hd Hin; cbn in *; [contradiction|].
  apply NoDup_cons in Hd as [Hn Hd].
  destruct Hin as [[= -> ->]|Hin].
  - rewrite spread_fold_notin by (intros Hi; apply Hn, list_elem_of_In, Hi). apply set_key_same.
  - now apply IH.
Qed.

(** The client's market-data cache updater: an empty cache becomes the
    one-element list of the message's data; a cache array holding a [null]
    or [undefined] item, or a cache that is truthy but not an array, makes
    the update throw a [TypeError]. *)
Theorem market_cache_update_errors (oldData msg_pair msg_data : val) :
  (truthy oldData = false -> ClientCache.market_cache_update oldData msg_pair msg_data = Ok (VArr [msg_data])) /\
  (forall items, Exists (fun it => nullish it = true) items ->
     ClientCache.market_cache_update (VArr items) msg_pair msg_data = Throw TypeError) /\
  (truthy oldData = true -> (forall xs, oldData <> VArr xs) ->
     ClientCache.market_cache_update oldData msg_pair msg_data = Throw TypeError).
Proof.
  split; [|split].
  - intros H. unfold ClientCache.market_cache_update. now rewrite H.
  - intros items Hex. unfold ClientCache.market_cache_update. cbn [truthy negb array_map].
    enough (Hm : mapM_outcome (fun item =>
              let? ip := prop item "pair" in
              Ok (if ClientCache.strict_eq ip msg_pair
                  then VObj (ClientCache.object_spread (ClientCache.object_spread [] item) msg_data)
                  else item)) items = Throw TypeError) by now rewrite Hm.
    induction Hex as [it its Hn|it its _ IH]; cbn [mapM_outcome].
    + unfold prop. rewrite Hn. reflexivity.
    + unfold prop at 1. destruct (nullish it); cbn [obind]; [reflexivity|]. now rewrite IH.
  - intros Ht Hna. unfold ClientCache.market_cache_update. rewrite Ht. cbn [negb].
    destruct oldData; try reflexivity. exfalso. eapply Hna. reflexivity.
Qed.

Lemma market_cache_update_errors_witness :
  ClientCache.market_cache_update (VArr [VObj [("pair", VStr "ETHUSD")]; VNull])
    (VStr "XBTUSD") (VObj [("pair", VStr "XBTUSD")]) = Throw TypeError /\
  ClientCache.market_cache_update VUndef (VStr "XBTUSD") VUndef = Ok (VArr [VUndef]) /\
  ClientCache.market_cache_update (VObj []) (VStr "XBTUSD") VUndef = Throw TypeError.
Proof.
  split; [|split].
  - apply (proj1 (proj2 (market_cache_update_errors VUndef _ _))).
    apply Exists_cons_tl, Exists_cons_hd. reflexivity.
  - apply (proj1 (market_cache_update_errors VUndef _ _)). reflexivity.
  - apply (proj2 (proj2 (market_cache_update_errors (VObj []) _ _))); [reflexivity|].
    intros xs H. discriminate H.
Defined.

(** For a cache of non-null items and a message whose data object carries
    the message's pair: when some item has that pair, each such item is
    replaced by its merge with the data and the others are kept, so the
    length is unchanged; otherwise the data is appended.  A merged item
    has every field of the data. *)
Theorem market_cache_update_merge (items : list val) (p : string) (fs : list (string * val)) :
  Forall (fun it => nullish it = false) items ->
  NoDup (map fst fs) -> In ("pair", VStr p) fs ->
  ClientCache.market_cache_update (VArr items) (VStr p) (VObj fs) =
    Ok (VArr (if existsb (item_matches p) items
              then map (fun it => if item_matches p it then merged_item it (VObj fs) else it) items
              else items ++ [VObj fs])) /\
  (forall it k v, In (k, v) fs -> get_prop (merged_item it (VObj fs)) k = v).
Proof.
  intros Hnn Hd Hp.
  assert (Hfield : forall it k v, In (k, v) fs -> get_prop (merged_item it (VObj fs)) k = v).
  { intros it k v Hin. unfold merged_item, ClientCache.object_spread at 1. cbn [get_prop ClientCache.own_entries].
    now rewrite (spread_fold_in k v fs _ Hd Hin). }
  split; [|exact Hfield].
  unfold ClientCache.market_cache_update. cbn [truthy negb array_map].
  assert (Hmap : mapM_outcome (fun item =>
              let? ip := prop item "pair" in
              Ok (if ClientCache.strict_eq ip (VStr p)
                  then VObj (ClientCache.object_spread (ClientCache.object_spread [] item) (VObj fs))
                  else item)) items
           = Ok (map (fun it => if item_matches p it then merged_item it (VObj fs) else it) items)).
  { clear Hp. induction Hnn as [|it its Hn _ IH]; cbn [mapM_outcome map]; [reflexivity|].
    unfold prop at 1. rewrite Hn. cbn [obind]. rewrite IH. reflexivity. }
  rewrite Hmap. cbn [obind].
  assert (Hsome : ClientCache.some_outcome (fun item =>
              let? ip := prop item "pair" in Ok (ClientCache.strict_eq ip (VStr p)))
            (map (fun it => if item_matches p it then merged_item it (VObj fs) else it) items)
          = Ok (existsb (item_matches p) items)).
  { clear Hmap. induction Hnn as [|it its Hn _ IH]; cbn [ClientCache.some_outcome map existsb]; [reflexivity|].
    destruct (item_matches p it) eqn:Em; cbn [obind].
    - unfold prop. cbn [nullish merged_item]. cbn [obind]. fold (merged_item it (VObj fs)).
      rewrite (Hfield it "pair" (VStr p) Hp). cbn. now rewrite String.eqb_refl.
    - unfold prop at 1. rewrite Hn. cbn [obind]. unfold item_matches in Em. rewrite Em. exact IH. }
  rewrite Hsome. cbn [obind]. destruct (existsb (item_matches p) items) eqn:Ee; [reflexivity|].
  f_equal. f_equal. f_equal.
  clear Hsome Hmap. induction Hnn as [|it its Hn _ IH]; cbn in *; [reflexivity|].
  apply orb_false_iff in Ee as [E1 E2]. rewrite E1. f_equal. exact (IH E2).
Qed.

Lemma market_cache_update_merge_witness :
  ClientCache.market_cache_update
    (VArr [VObj [("pair", VStr "ETHUSD"); ("lastPrice", VNum PrimFloat.one)];
           VObj [("pair", VStr "XBTUSD"); ("lastPrice", VNum PrimFloat.one)]])
    (VStr "XBTUSD") (VObj [("pair", VStr "XBTUSD"); ("lastPrice", VNum PrimFloat.two)]) =
  Ok (VArr [VObj [("pair", VStr "ETHUSD"); ("lastPrice", VNum PrimFloat.one)];
            VObj [("pair", VStr "XBTUSD"); ("lastPrice", VNum PrimFloat.two)]]).
Proof.
  rewrite (proj1 (market_cache_update_merge
                    [VObj [("pair", VStr "ETHUSD"); ("lastPrice", VNum PrimFloat.one)];
                     VObj [("pair", VStr "XBTUSD"); ("lastPrice", VNum PrimFloat.one)]]
                    "XBTUSD" [("pair", VStr "XBTUSD"); ("lastPrice", VNum PrimFloat.two)]
                    ltac:(repeat constructor) ltac:(cbn; apply NoDup_cons; split; [set_solver | apply NoDup_singleton])
                    ltac:(left; reflexivity))).
  reflexivity.
Defined.
